(** * Wind-turbine proximity notebook (windfarm.ipynb)

    A shallow embedding of the analysis cells of
    [Python/wind-turbine-proximity/windfarm.ipynb]: the two GeoJSON layers
    are exploded, reprojected to EPSG:3857, every district row receives a
    centroid, every turbine row receives the distance (km) to its nearest
    centroid, the rows within 5 km are kept, reprojected to EPSG:4326,
    drawn as red/orange markers and summarised (count, mean, min, max).
    The histogram cell only plots the retained distances and the marker
    styling (radius, opacity, popup text) is constant; neither is modelled.

    Numbers are IEEE-754 binary64 values, as Python floats and NumPy
    float64 are; they are represented by [spec_float] with precision 53 and
    maximal exponent 1024, so that NaN, the infinities and the signed
    zeros behave as in the notebook.  The geometry engine (shapely, pyproj)
    is not part of the repository and is taken as a parameter. *)

From Stdlib Require Import String ZArith List Bool Lia Permutation.
From Stdlib Require Import Floats.SpecFloat.
Import ListNotations.

Set Implicit Arguments.

(** ** binary64 arithmetic *)

Module F64.

Definition prec : Z := 53.
Definition emax : Z := 1024.

Definition float := spec_float.

Definition nan : float := S754_nan.
Definition inf : float := S754_infinity false.
Definition neg_inf : float := S754_infinity true.
Definition zero : float := S754_zero false.

(** An integer literal or an integer count converted to float64. *)
Definition of_Z (z : Z) : float := binary_normalize prec emax z 0 false.
Definition of_nat (n : nat) : float := of_Z (Z.of_nat n).

Definition add : float -> float -> float := SFadd prec emax.
Definition sub : float -> float -> float := SFsub prec emax.
Definition mul : float -> float -> float := SFmul prec emax.
Definition div : float -> float -> float := SFdiv prec emax.
Definition sqrt : float -> float := SFsqrt prec emax.

Definition leb : float -> float -> bool := SFleb.
Definition ltb : float -> float -> bool := SFltb.
Definition eqb : float -> float -> bool := SFeqb.

Definition is_nan (x : float) : bool :=
  match x with S754_nan => true | _ => false end.

End F64.

Import F64.

(** ** The order of binary64 values

    [<=] and [<] on floats are [SFleb] and [SFltb]: both are false as soon
    as one side is NaN; on the other values they form a total preorder in
    which the two zeros are equivalent. *)

Section FloatOrder.

Lemma leb_not_nan_l (x y : float) : leb x y = true -> is_nan x = false.
Proof. destruct x; simpl; intros H; try reflexivity; discriminate H. Qed.

Lemma leb_not_nan_r (x y : float) : leb x y = true -> is_nan y = false.
Proof.
  destruct y; simpl; intros H; try reflexivity.
  destruct x; discriminate H.
Qed.

Lemma ltb_not_nan_l (x y : float) : ltb x y = true -> is_nan x = false.
Proof. destruct x; simpl; intros H; try reflexivity; discriminate H. Qed.

Lemma compare_refl (x : float) : is_nan x = false -> SFcompare x x = Some Eq.
Proof.
  destruct x as [s|s| |s m e]; simpl; intros H; try discriminate H.
  - reflexivity.
  - destruct s; reflexivity.
  - change (PosDef.Pos.compare_cont Eq m m) with (Pos.compare m m).
    rewrite Z.compare_refl, Pos.compare_refl.
    destruct s; reflexivity.
Qed.

Lemma leb_refl (x : float) : is_nan x = false -> leb x x = true.
Proof. intros H; unfold leb, SFleb; rewrite (compare_refl x H); reflexivity. Qed.


Lemma ltb_leb (x y : float) : ltb x y = true -> leb x y = true.
Proof.
  unfold ltb, leb, SFltb, SFleb.
  destruct (SFcompare x y) as [[| |]|]; intros H; try discriminate H; reflexivity.
Qed.

Lemma eqb_leb (x y : float) : eqb x y = true -> leb x y = true.
Proof.
  unfold eqb, leb, SFeqb, SFleb.
  destruct (SFcompare x y) as [[| |]|]; intros H; try discriminate H; reflexivity.
Qed.

Lemma eqb_not_ltb (x y : float) : eqb x y = true -> ltb x y = false.
Proof.
  unfold eqb, ltb, SFeqb, SFltb.
  destruct (SFcompare x y) as [[| |]|]; intros H; try discriminate H; reflexivity.
Qed.

Ltac order_cases :=
  repeat match goal with
    | |- context [PosDef.Pos.compare_cont Eq ?a ?b] =>
        change (PosDef.Pos.compare_cont Eq a b) with (Pos.compare a b)
    | |- context [Z.compare ?a ?b] => destruct (Z.compare_spec a b)
    | |- context [Pos.compare ?a ?b] => destruct (Pos.compare_spec a b)
    end.

(** Exactly one of [x <= y] and [y < x] holds between two numbers. *)
Lemma leb_total (x y : float) :
  is_nan x = false -> is_nan y = false -> leb x y = false -> ltb y x = true.
Proof.
  destruct x as [sx|sx| |sx mx ex], y as [sy|sy| |sy my ey];
    simpl; intros Hx Hy; try discriminate Hx; try discriminate Hy;
    unfold leb, ltb, SFleb, SFltb, SFcompare;
    try (destruct sx); try (destruct sy);
    try (intros H; discriminate H); try (intros _; reflexivity);
    order_cases; simpl;
    try (intros H; discriminate H); try (intros _; reflexivity);
    subst; lia.
Qed.

Lemma leb_trans (x y z : float) :
  leb x y = true -> leb y z = true -> leb x z = true.
Proof.
  destruct x as [sx|sx| |sx mx ex], y as [sy|sy| |sy my ey],
           z as [sz|sz| |sz mz ez];
    unfold leb, SFleb, SFcompare;
    try (destruct sx); try (destruct sy); try (destruct sz);
    try reflexivity; try (intros H; discriminate H);
    try (intros _ H; discriminate H);
    order_cases; simpl;
    try reflexivity; try (intros H; discriminate H);
    try (intros _ H; discriminate H); subst; lia.
Qed.

Lemma ltb_leb_trans (x y z : float) :
  ltb x y = true -> leb y z = true -> ltb x z = true.
Proof.
  destruct x as [sx|sx| |sx mx ex], y as [sy|sy| |sy my ey],
           z as [sz|sz| |sz mz ez];
    unfold ltb, leb, SFltb, SFleb, SFcompare;
    try (destruct sx); try (destruct sy); try (destruct sz);
    try reflexivity; try (intros H; discriminate H);
    try (intros _ H; discriminate H);
    order_cases; simpl;
    try reflexivity; try (intros H; discriminate H);
    try (intros _ H; discriminate H); subst; lia.
Qed.

End FloatOrder.

(** ** The sign of a rounded quotient

    Rounding never changes the sign of a mantissa: a non-negative float
    divided by a positive finite one is a non-negative float (a zero, a
    positive number or [+inf] on overflow), never NaN. *)

Section FloatSign.

Lemma shr_1_nonneg (mrs : shr_record) :
  (0 <= shr_m mrs)%Z -> (0 <= shr_m (shr_1 mrs))%Z.
Proof.
  destruct mrs as [m r s]; simpl.
  destruct m as [|[p|p|]|p]; simpl; intros H; lia.
Qed.

Lemma iter_pos_invariant (A : Type) (P : A -> Prop) (f : A -> A) :
  (forall a, P a -> P (f a)) ->
  forall (n : positive) (a : A), P a -> P (iter_pos f n a).
Proof.
  intros Hf; induction n as [n IH|n IH|]; simpl; intros a Ha; auto.
Qed.

Lemma shr_nonneg (mrs : shr_record) (e n : Z) :
  (0 <= shr_m mrs)%Z -> (0 <= shr_m (fst (shr mrs e n)))%Z.
Proof.
  intros H; destruct n as [|p|p]; simpl; auto.
  apply iter_pos_invariant with (P := fun r => (0 <= shr_m r)%Z); auto.
  apply shr_1_nonneg.
Qed.

Lemma shr_fexp_nonneg (m e : Z) (l : location) :
  (0 <= m)%Z -> (0 <= shr_m (fst (shr_fexp prec emax m e l)))%Z.
Proof.
  intros H; unfold shr_fexp; apply shr_nonneg.
  destruct l as [|[| |]]; simpl; exact H.
Qed.

Lemma round_nearest_even_nonneg (m : Z) (l : location) :
  (0 <= m)%Z -> (0 <= round_nearest_even m l)%Z.
Proof.
  intros H; destruct l as [|[| |]]; simpl; try lia.
  destruct (Z.even m); lia.
Qed.

(** A float that is a zero, a finite number or an infinity of sign [s]. *)
Definition has_sign (s : bool) (x : float) : bool :=
  match x with
  | S754_zero s' | S754_infinity s' | S754_finite s' _ _ => Bool.eqb s s'
  | S754_nan => false
  end.

Lemma binary_round_aux_sign (s : bool) (m e : Z) (l : location) :
  (0 <= m)%Z -> has_sign s (binary_round_aux prec emax s m e l) = true.
Proof.
  intros H; unfold binary_round_aux.
  pose proof (shr_fexp_nonneg e l H) as H1.
  destruct (shr_fexp prec emax m e l) as [mrs' e']; simpl in H1.
  pose proof (round_nearest_even_nonneg (loc_of_shr_record mrs') H1) as H2.
  pose proof (shr_fexp_nonneg e' loc_Exact H2) as H3.
  destruct (shr_fexp prec emax _ e' loc_Exact) as [mrs'' e'']; simpl in H3.
  destruct (shr_m mrs'') as [|p|p]; simpl.
  - apply Bool.eqb_reflx.
  - destruct (Z.leb e'' _); simpl; apply Bool.eqb_reflx.
  - lia.
Qed.

Lemma div_core_nonneg (m1 m2 : positive) (e1 e2 : Z) :
  (0 <= fst (fst (SFdiv_core_binary prec emax (Zpos m1) e1 (Zpos m2) e2)))%Z.
Proof.
  unfold SFdiv_core_binary.
  set (s := (e1 - e2 - _)%Z).
  set (m' := match s with Z0 => Zpos m1 | Zpos _ => Z.shiftl (Zpos m1) s | Zneg _ => Z0 end).
  assert (Hm' : (0 <= m')%Z).
  { unfold m'; destruct s; try lia. apply Z.shiftl_nonneg; lia. }
  pose proof (Z.div_eucl_eq m' (Zpos m2) ltac:(lia)) as Heq.
  pose proof (Z.mod_pos_bound m' (Zpos m2) ltac:(lia)) as Hr.
  unfold Z.modulo in Hr.
  destruct (Z.div_eucl m' (Zpos m2)) as [q r]; simpl. nia.
Qed.

Lemma leb_zero_has_sign (x : float) :
  has_sign false x = true -> leb zero x = true.
Proof.
  destruct x as [s|s| |s m e]; simpl; try discriminate; try reflexivity;
    destruct s; simpl; intros H; try discriminate H; reflexivity.
Qed.

Lemma div_nonneg (x : float) (my : positive) (ey : Z) :
  leb zero x = true -> leb zero (div x (S754_finite false my ey)) = true.
Proof.
  destruct x as [s|s| |s mx ex]; simpl; intros Hx.
  - reflexivity.
  - destruct s; [discriminate Hx | reflexivity].
  - discriminate Hx.
  - destruct s; [discriminate Hx|].
    apply leb_zero_has_sign. unfold div, SFdiv.
    pose proof (div_core_nonneg mx my ex ey) as Hq.
    destruct (SFdiv_core_binary prec emax (Zpos mx) ex (Zpos my) ey) as [[mz ez] lz].
    simpl in Hq. apply binary_round_aux_sign; exact Hq.
Qed.

End FloatSign.

(** ** pandas: reductions of a float64 column

    The notebook calls [Series.min], [Series.max] and [Series.mean] with
    their defaults ([skipna=True]).  pandas (core/nanops.py) masks the NaN
    entries, fills them with the neutral value of the reduction ([+inf],
    [-inf], [0]), reduces with NumPy, and returns NaN when no entry is
    left.  NumPy's [minimum] and [maximum] keep the accumulator when it
    is strictly smaller (greater) or NaN and take the next entry
    otherwise, so that a tie between [+0.0] and [-0.0] gives the later of
    the two; nothing below depends on the sign of that zero.  The sum is NumPy's
    pairwise summation ([DOUBLE_pairwise_sum]): fewer than 8 entries are
    added from left to right, up to 128 entries are added in eight
    interleaved accumulators that are then combined as a balanced tree,
    and a longer array is split in two halves.  The reduction starts from
    the identity [0.0]; NumPy versions that start from [-0.0] differ only
    in the sign of a sum that is a zero. *)

Module Series.

Definition notna (x : float) : bool := negb (is_nan x).

Definition fill (v x : float) : float := if is_nan x then v else x.

(** Number of entries that are not NaN. *)
Definition count (s : list float) : nat := length (filter notna s).

Definition np_minimum (io1 in2 : float) : float :=
  if ltb io1 in2 || is_nan io1 then io1 else in2.

Definition np_maximum (io1 in2 : float) : float :=
  if ltb in2 io1 || is_nan io1 then io1 else in2.

Definition reduce (op : float -> float -> float) (values : list float) : float :=
  match values with
  | [] => nan
  | x :: xs => fold_left op xs x
  end.

Definition min (s : list float) : float :=
  if Nat.eqb (count s) 0 then nan else reduce np_minimum (map (fill inf) s).

Definition max (s : list float) : float :=
  if Nat.eqb (count s) 0 then nan else reduce np_maximum (map (fill neg_inf) s).

Definition neg_zero : float := S754_zero true.

(** [r[j] += a[j]] on the eight accumulators. *)
Fixpoint add_lanes (r a : list float) : list float :=
  match r, a with
  | x :: r', y :: a' => add x y :: add_lanes r' a'
  | _, _ => r
  end.

(** The unrolled loop: [blocks] times, the next eight entries are added to
    the accumulators; the entries not consumed are returned. *)
Fixpoint unrolled (blocks : nat) (r a : list float) : list float * list float :=
  match blocks with
  | O => (r, a)
  | S blocks' => unrolled blocks' (add_lanes r (firstn 8 a)) (skipn 8 a)
  end.

(** [((r0 + r1) + (r2 + r3)) + ((r4 + r5) + (r6 + r7))] *)
Definition combine_lanes (r : list float) : float :=
  match r with
  | [r0; r1; r2; r3; r4; r5; r6; r7] =>
      add (add (add r0 r1) (add r2 r3)) (add (add r4 r5) (add r6 r7))
  | _ => fold_left add r neg_zero
  end.

(** An array of at most 128 entries. *)
Definition block_sum (a : list float) : float :=
  let n := length a in
  if Nat.ltb n 8 then fold_left add a neg_zero
  else
    let '(r, rest) := unrolled ((n - 8) / 8) (firstn 8 a) (skipn 8 a) in
    fold_left add rest (combine_lanes r).

(** Longer arrays are halved, the first half a multiple of 8 long; [fuel]
    bounds the depth of the recursion (the length of the array is
    enough, see [pairwise_sum_fuel]). *)
Fixpoint pairwise_sum (fuel : nat) (a : list float) : float :=
  let n := length a in
  match fuel with
  | S fuel' =>
      if Nat.leb n 128 then block_sum a
      else
        let n2 := n / 2 - (n / 2) mod 8 in
        add (pairwise_sum fuel' (firstn n2 a)) (pairwise_sum fuel' (skipn n2 a))
  | O => block_sum a
  end.

(** [values.sum()] *)
Definition np_sum (a : list float) : float :=
  add zero (pairwise_sum (length a) a).

Definition sum (s : list float) : float := np_sum (map (fill zero) s).

Definition mean (s : list float) : float :=
  if Nat.eqb (count s) 0 then nan else div (sum s) (of_nat (count s)).

End Series.

(** [m] is a least (greatest) element of the numbers of [s]. *)
Definition is_min (m : float) (s : list float) : Prop :=
  In m s /\ forall d, In d s -> leb m d = true.

Definition is_max (m : float) (s : list float) : Prop :=
  In m s /\ forall d, In d s -> leb d m = true.

Definition all_numbers (s : list float) : Prop :=
  forall d, In d s -> is_nan d = false.

Section SeriesFacts.

Lemma fill_number (v x : float) : is_nan x = false -> Series.fill v x = x.
Proof. unfold Series.fill; intros ->; reflexivity. Qed.

Lemma map_fill_numbers (v : float) (s : list float) :
  all_numbers s -> map (Series.fill v) s = s.
Proof.
  induction s as [|x s IH]; simpl; intros H; [reflexivity|].
  rewrite fill_number by (apply H; left; reflexivity).
  rewrite IH; [reflexivity|]. intros d Hd; apply H; right; exact Hd.
Qed.

Lemma filter_notna_numbers (s : list float) :
  all_numbers s -> filter Series.notna s = s.
Proof.
  induction s as [|x s IH]; simpl; intros H; [reflexivity|].
  unfold Series.notna at 1. rewrite (H x) by (left; reflexivity); simpl.
  rewrite IH; [reflexivity|]. intros d Hd; apply H; right; exact Hd.
Qed.

Lemma count_numbers (s : list float) :
  all_numbers s -> Series.count s = length s.
Proof. intros H; unfold Series.count; rewrite filter_notna_numbers; auto. Qed.

Lemma count_zero_iff (s : list float) :
  Series.count s = 0 <-> forall d, In d s -> is_nan d = true.
Proof.
  unfold Series.count; induction s as [|x s IH]; simpl.
  - split; [intros _ d []|reflexivity].
  - unfold Series.notna at 1. destruct (is_nan x) eqn:Hx; simpl.
    + rewrite IH; split; intros H d.
      * intros [<-|Hd]; [exact Hx|apply H; exact Hd].
      * intros Hd; apply H; right; exact Hd.
    + split; [discriminate|]. intros H.
      rewrite (H x) in Hx by (left; reflexivity). discriminate Hx.
Qed.

(** The accumulator of NumPy's [minimum] reduction over numbers. *)
Lemma fold_minimum (xs : list float) (acc : float) :
  is_nan acc = false -> all_numbers xs ->
  forall r, r = fold_left Series.np_minimum xs acc ->
  (r = acc \/ In r xs) /\ leb r acc = true /\
  forall d, In d xs -> leb r d = true.
Proof.
  revert acc; induction xs as [|x xs IH]; simpl; intros acc Hacc Hxs r ->.
  - repeat split; [left; reflexivity|apply leb_refl; exact Hacc|intros d []].
  - assert (Hx : is_nan x = false) by (apply Hxs; left; reflexivity).
    assert (Hxs' : all_numbers xs) by (intros d Hd; apply Hxs; right; exact Hd).
    assert (Hstep : Series.np_minimum acc x = if ltb acc x then acc else x)
      by (unfold Series.np_minimum; rewrite Hacc, orb_false_r; reflexivity).
    rewrite Hstep; clear Hstep.
    destruct (ltb acc x) eqn:Hlt.
    + pose proof (ltb_leb _ _ Hlt) as Hle.
      destruct (IH acc Hacc Hxs' _ eq_refl) as (Hin & Hlow & Hall).
      repeat split.
      * destruct Hin; [left|right; right]; assumption.
      * exact Hlow.
      * intros d [<-|Hd]; [eapply leb_trans; eassumption|apply Hall; exact Hd].
    + destruct (IH x Hx Hxs' _ eq_refl) as (Hin & Hlow & Hall).
      assert (Hxa : leb x acc = true).
      { destruct (leb x acc) eqn:Hxa; [reflexivity|].
        rewrite (leb_total _ _ Hx Hacc Hxa) in Hlt; discriminate Hlt. }
      repeat split.
      * right; destruct Hin as [->|Hin]; [left; reflexivity|right; exact Hin].
      * eapply leb_trans; eassumption.
      * intros d [<-|Hd]; [exact Hlow|apply Hall; exact Hd].
Qed.

Lemma fold_maximum (xs : list float) (acc : float) :
  is_nan acc = false -> all_numbers xs ->
  forall r, r = fold_left Series.np_maximum xs acc ->
  (r = acc \/ In r xs) /\ leb acc r = true /\
  forall d, In d xs -> leb d r = true.
Proof.
  revert acc; induction xs as [|x xs IH]; simpl; intros acc Hacc Hxs r ->.
  - repeat split; [left; reflexivity|apply leb_refl; exact Hacc|intros d []].
  - assert (Hx : is_nan x = false) by (apply Hxs; left; reflexivity).
    assert (Hxs' : all_numbers xs) by (intros d Hd; apply Hxs; right; exact Hd).
    assert (Hstep : Series.np_maximum acc x = if ltb x acc then acc else x)
      by (unfold Series.np_maximum; rewrite Hacc, orb_false_r; reflexivity).
    rewrite Hstep; clear Hstep.
    destruct (ltb x acc) eqn:Hlt.
    + pose proof (ltb_leb _ _ Hlt) as Hle.
      destruct (IH acc Hacc Hxs' _ eq_refl) as (Hin & Hlow & Hall).
      repeat split.
      * destruct Hin; [left|right; right]; assumption.
      * exact Hlow.
      * intros d [<-|Hd]; [eapply leb_trans; eassumption|apply Hall; exact Hd].
    + destruct (IH x Hx Hxs' _ eq_refl) as (Hin & Hlow & Hall).
      assert (Hxa : leb acc x = true).
      { destruct (leb acc x) eqn:Hxa; [reflexivity|].
        rewrite (leb_total _ _ Hacc Hx Hxa) in Hlt; discriminate Hlt. }
      repeat split.
      * right; destruct Hin as [->|Hin]; [left; reflexivity|right; exact Hin].
      * eapply leb_trans; eassumption.
      * intros d [<-|Hd]; [exact Hlow|apply Hall; exact Hd].
Qed.

Lemma reduce_minimum (s : list float) :
  s <> [] -> all_numbers s -> is_min (Series.reduce Series.np_minimum s) s.
Proof.
  destruct s as [|x xs]; [intros H; contradiction H; reflexivity|].
  intros _ H; simpl.
  destruct (@fold_minimum xs x) with (r := fold_left Series.np_minimum xs x)
    as (Hin & Hlow & Hall).
  - apply H; left; reflexivity.
  - intros d Hd; apply H; right; exact Hd.
  - reflexivity.
  - split.
    + destruct Hin as [->|Hin]; [left; reflexivity|right; exact Hin].
    + intros d [<-|Hd]; [exact Hlow|apply Hall; exact Hd].
Qed.

Lemma reduce_maximum (s : list float) :
  s <> [] -> all_numbers s -> is_max (Series.reduce Series.np_maximum s) s.
Proof.
  destruct s as [|x xs]; [intros H; contradiction H; reflexivity|].
  intros _ H; simpl.
  destruct (@fold_maximum xs x) with (r := fold_left Series.np_maximum xs x)
    as (Hin & Hlow & Hall).
  - apply H; left; reflexivity.
  - intros d Hd; apply H; right; exact Hd.
  - reflexivity.
  - split.
    + destruct Hin as [->|Hin]; [left; reflexivity|right; exact Hin].
    + intros d [<-|Hd]; [exact Hlow|apply Hall; exact Hd].
Qed.

(** On a non-empty column without NaN, [min] and [max] are the extrema. *)
Lemma min_numbers (s : list float) :
  s <> [] -> all_numbers s -> is_min (Series.min s) s.
Proof.
  intros Hne H; unfold Series.min.
  rewrite count_numbers by exact H.
  destruct s as [|x xs]; [contradiction Hne; reflexivity|].
  change (Nat.eqb (length (x :: xs)) 0) with false; cbv iota.
  rewrite map_fill_numbers by exact H.
  apply reduce_minimum; assumption.
Qed.

Lemma max_numbers (s : list float) :
  s <> [] -> all_numbers s -> is_max (Series.max s) s.
Proof.
  intros Hne H; unfold Series.max.
  rewrite count_numbers by exact H.
  destruct s as [|x xs]; [contradiction Hne; reflexivity|].
  change (Nat.eqb (length (x :: xs)) 0) with false; cbv iota.
  rewrite map_fill_numbers by exact H.
  apply reduce_maximum; assumption.
Qed.

Lemma min_all_nan (s : list float) :
  (forall d, In d s -> is_nan d = true) -> Series.min s = nan.
Proof.
  intros H; unfold Series.min.
  apply count_zero_iff in H; rewrite H; reflexivity.
Qed.

Lemma fill_is_number (v x : float) :
  is_nan v = false -> is_nan (Series.fill v x) = false.
Proof. unfold Series.fill; intros Hv; destruct (is_nan x) eqn:Hx; assumption. Qed.

Lemma leb_inf (x : float) : leb inf x = true -> x = inf.
Proof.
  destruct x as [s|s| |s m e]; simpl; try discriminate.
  destruct s; [discriminate|reflexivity].
Qed.

(** With [skipna], [min] is a least element of the entries that are
    numbers, as soon as there is one. *)
Lemma min_skipna (s : list float) :
  (exists d, In d s /\ is_nan d = false) ->
  In (Series.min s) s /\ is_nan (Series.min s) = false /\
  forall d, In d s -> is_nan d = false -> leb (Series.min s) d = true.
Proof.
  intros (d0 & Hd0 & Hn0); unfold Series.min.
  destruct (Nat.eqb (Series.count s) 0) eqn:Hcount.
  - apply Nat.eqb_eq in Hcount.
    pose proof (proj1 (count_zero_iff s) Hcount d0 Hd0) as Hnan.
    rewrite Hnan in Hn0; discriminate Hn0.
  - assert (Hnum : all_numbers (map (Series.fill inf) s)).
    { intros d Hd; apply in_map_iff in Hd as (x & <- & _).
      apply fill_is_number; reflexivity. }
    assert (Hne : map (Series.fill inf) s <> [])
      by (destruct s; [destruct Hd0|discriminate]).
    destruct (reduce_minimum Hne Hnum) as (Hin & Hlow).
    assert (Hbound : forall d, In d s -> is_nan d = false ->
                     leb (Series.reduce Series.np_minimum (map (Series.fill inf) s)) d = true).
    { intros d Hd Hn; apply Hlow.
      rewrite <- (fill_number inf d Hn); apply in_map; exact Hd. }
    split; [|split; [apply Hnum; exact Hin|exact Hbound]].
    apply in_map_iff in Hin as (x & Hx & Hxs).
    destruct (is_nan x) eqn:Hnx.
    + assert (Hx' : Series.fill inf x = inf)
        by (unfold Series.fill; rewrite Hnx; reflexivity).
      rewrite Hx' in Hx; rewrite <- Hx in Hbound |- *.
      rewrite <- (leb_inf d0 (Hbound d0 Hd0 Hn0)); exact Hd0.
    + rewrite (fill_number inf x Hnx) in Hx; rewrite <- Hx; exact Hxs.
Qed.

End SeriesFacts.

(** ** NumPy's summation order *)

Section Summation.

Lemma pairwise_sum_step (fuel : nat) (a : list float) :
  Series.pairwise_sum (S fuel) a =
  if Nat.leb (length a) 128 then Series.block_sum a
  else
    let n2 := length a / 2 - (length a / 2) mod 8 in
    add (Series.pairwise_sum fuel (firstn n2 a))
        (Series.pairwise_sum fuel (skipn n2 a)).
Proof. reflexivity. Qed.

Lemma pairwise_sum_stable (fuel fuel' : nat) (a : list float) :
  length a <= fuel -> length a <= fuel' ->
  Series.pairwise_sum fuel a = Series.pairwise_sum fuel' a.
Proof.
  revert fuel' a; induction fuel as [|fuel IH]; intros [|fuel'] a H H'.
  - reflexivity.
  - rewrite pairwise_sum_step.
    destruct a; [reflexivity|simpl in H; lia].
  - rewrite pairwise_sum_step.
    destruct a; [reflexivity|simpl in H'; lia].
  - rewrite !pairwise_sum_step.
    destruct (Nat.leb (length a) 128) eqn:Hn; [reflexivity|].
    apply Nat.leb_gt in Hn; cbv zeta.
    pose proof (Nat.div_mod_eq (length a) 2) as Hq.
    pose proof (Nat.mod_upper_bound (length a) 2 ltac:(discriminate)) as Hq2.
    pose proof (Nat.mod_upper_bound (length a / 2) 8 ltac:(discriminate)) as Hr.
    set (q := length a / 2) in *; set (r := q mod 8) in *.
    f_equal; apply IH; rewrite ?length_firstn, ?length_skipn; lia.
Qed.

(** The recursion never runs out of fuel: any fuel from the length of the
    array on gives the same sum. *)
Lemma pairwise_sum_fuel (fuel : nat) (a : list float) :
  length a <= fuel ->
  Series.pairwise_sum fuel a = Series.pairwise_sum (length a) a.
Proof. intros H; apply pairwise_sum_stable; [exact H|apply Nat.le_refl]. Qed.

(** Fewer than eight entries are added from left to right. *)
Lemma np_sum_short (a : list float) :
  length a < 8 ->
  Series.np_sum a = add zero (fold_left add a Series.neg_zero).
Proof.
  intros H; unfold Series.np_sum.
  destruct (length a) as [|n] eqn:Hlen.
  - destruct a; [reflexivity|discriminate Hlen].
  - rewrite pairwise_sum_step, Hlen.
    assert (Hle : Nat.leb (S n) 128 = true) by (apply Nat.leb_le; lia).
    rewrite Hle; unfold Series.block_sum; rewrite Hlen.
    assert (Hlt : Nat.ltb (S n) 8 = true) by (apply Nat.ltb_lt; lia).
    rewrite Hlt; reflexivity.
Qed.

(** Eight entries are added as a balanced tree: the sum of 0.1, ..., 0.8
    is 3.6, where a sum from left to right gives 3.5999999999999996. *)
Example np_sum_of_eight :
  let tenths := map (fun k => div (of_Z k) (of_Z 10)) [1; 2; 3; 4; 5; 6; 7; 8]%Z in
  Series.np_sum tenths = div (of_Z 36) (of_Z 10) /\
  fold_left add tenths zero <> div (of_Z 36) (of_Z 10).
Proof. vm_compute; split; [reflexivity|discriminate]. Qed.

End Summation.

(** ** Floats that compare equal

    [==] on floats is [SFeqb]: two floats compare equal when they are the
    same number or two zeros.  The comparisons of the notebook cannot tell
    such floats apart, and neither can a division by 1000. *)

Section FloatEquality.

Ltac compare_cases :=
  repeat match goal with
    | |- context [PosDef.Pos.compare_cont Eq ?a ?b] =>
        change (PosDef.Pos.compare_cont Eq a b) with (Pos.compare a b)
    | |- context [Z.compare ?a ?b] => destruct (Z.compare_spec a b)
    | |- context [Pos.compare ?a ?b] => destruct (Pos.compare_spec a b)
    end.

Lemma leb_antisym (x y : float) :
  leb x y = true -> leb y x = true -> eqb x y = true.
Proof.
  destruct x as [sx|sx| |sx mx ex], y as [sy|sy| |sy my ey];
    unfold leb, eqb, SFleb, SFeqb, SFcompare;
    try (destruct sx); try (destruct sy);
    try reflexivity; try (intros Hf; discriminate Hf);
    try (intros _ Hf; discriminate Hf);
    compare_cases; simpl;
    try reflexivity; try (intros Hf; discriminate Hf);
    try (intros _ Hf; discriminate Hf); subst; lia.
Qed.

Lemma eqb_sym (x y : float) : eqb x y = true -> eqb y x = true.
Proof.
  destruct x as [sx|sx| |sx mx ex], y as [sy|sy| |sy my ey];
    unfold eqb, SFeqb, SFcompare;
    try (destruct sx); try (destruct sy);
    try reflexivity; try (intros Hf; discriminate Hf);
    compare_cases; simpl;
    try reflexivity; try (intros Hf; discriminate Hf); subst; lia.
Qed.

Lemma leb_ltb_trans (x y z : float) :
  leb x y = true -> ltb y z = true -> ltb x z = true.
Proof.
  destruct x as [sx|sx| |sx mx ex], y as [sy|sy| |sy my ey],
           z as [sz|sz| |sz mz ez];
    unfold ltb, leb, SFltb, SFleb, SFcompare;
    try (destruct sx); try (destruct sy); try (destruct sz);
    try reflexivity; try (intros Hf; discriminate Hf);
    try (intros _ Hf; discriminate Hf);
    compare_cases; simpl;
    try reflexivity; try (intros Hf; discriminate Hf);
    try (intros _ Hf; discriminate Hf); subst; lia.
Qed.

Lemma eqb_refl (x : float) : is_nan x = false -> eqb x x = true.
Proof. intros H; unfold eqb, SFeqb; rewrite (compare_refl x H); reflexivity. Qed.

Lemma eqb_leb_same (x y t : float) : eqb x y = true -> leb x t = leb y t.
Proof.
  intros H; pose proof (eqb_leb _ _ H) as Hxy.
  pose proof (eqb_leb _ _ (eqb_sym _ _ H)) as Hyx.
  destruct (leb x t) eqn:Hx, (leb y t) eqn:Hy; try reflexivity.
  - rewrite (leb_trans _ _ _ Hyx Hx) in Hy; discriminate Hy.
  - rewrite (leb_trans _ _ _ Hxy Hy) in Hx; discriminate Hx.
Qed.

Lemma eqb_ltb_same (x y t : float) : eqb x y = true -> ltb x t = ltb y t.
Proof.
  intros H; pose proof (eqb_leb _ _ H) as Hxy.
  pose proof (eqb_leb _ _ (eqb_sym _ _ H)) as Hyx.
  destruct (ltb x t) eqn:Hx, (ltb y t) eqn:Hy; try reflexivity.
  - rewrite (leb_ltb_trans _ _ _ Hyx Hx) in Hy; discriminate Hy.
  - rewrite (leb_ltb_trans _ _ _ Hxy Hy) in Hx; discriminate Hx.
Qed.

(** Floats that compare equal are the same float or two zeros. *)
Lemma eqb_cases (x y : float) :
  eqb x y = true ->
  x = y \/ exists s s', x = S754_zero s /\ y = S754_zero s'.
Proof.
  destruct x as [sx|sx| |sx mx ex], y as [sy|sy| |sy my ey];
    unfold eqb, SFeqb, SFcompare;
    try (destruct sx); try (destruct sy);
    try (intros Hf; discriminate Hf);
    try (intros _; left; reflexivity);
    try (intros _; right; eexists; eexists; split; reflexivity);
    compare_cases; simpl; try (intros Hf; discriminate Hf);
    intros _; subst; left; reflexivity.
Qed.

Lemma has_sign_number (s : bool) (x : float) :
  has_sign s x = true -> is_nan x = false.
Proof. destruct x; simpl; intros H; try reflexivity; discriminate H. Qed.

(** Dividing a number by a positive finite float gives a number. *)
Lemma div_number (x : float) (my : positive) (ey : Z) :
  is_nan x = false -> is_nan (div x (S754_finite false my ey)) = false.
Proof.
  destruct x as [s|s| |s mx ex]; simpl; intros Hx; try reflexivity;
    [discriminate Hx|].
  apply has_sign_number with (s := xorb s false). unfold div, SFdiv.
  pose proof (div_core_nonneg mx my ex ey) as Hq.
  destruct (SFdiv_core_binary prec emax (Zpos mx) ex (Zpos my) ey) as [[mz ez] lz].
  simpl in Hq. apply binary_round_aux_sign; exact Hq.
Qed.

Lemma div_eqb (x y : float) (my : positive) (ey : Z) :
  eqb x y = true ->
  eqb (div x (S754_finite false my ey)) (div y (S754_finite false my ey)) = true.
Proof.
  intros H; destruct (eqb_cases _ _ H) as [<-|(s & s' & -> & ->)].
  - apply eqb_refl, div_number.
    destruct x; try reflexivity; discriminate H.
  - reflexivity.
Qed.

End FloatEquality.

(** ** The minimum does not depend on the order of the column *)

(** Two results that no comparison of the notebook tells apart: both NaN,
    or floats that compare equal. *)
Definition agree (x y : float) : Prop :=
  (is_nan x = true /\ is_nan y = true) \/ eqb x y = true.

Section SeriesOrder.

Lemma count_positive (s : list float) :
  Series.count s <> 0 -> exists d, In d s /\ is_nan d = false.
Proof.
  unfold Series.count; intros H.
  destruct (filter Series.notna s) as [|d ds] eqn:Hf; [contradiction H; reflexivity|].
  assert (Hd : In d (filter Series.notna s)) by (rewrite Hf; left; reflexivity).
  apply filter_In in Hd as (Hin & Hn); exists d; split; [exact Hin|].
  unfold Series.notna in Hn; destruct (is_nan d); [discriminate Hn|reflexivity].
Qed.

Lemma min_permutation (s s' : list float) :
  Permutation s s' -> agree (Series.min s) (Series.min s').
Proof.
  intros Hp; destruct (Nat.eq_dec (Series.count s) 0) as [H0|Hpos].
  - left.
    pose proof (proj1 (count_zero_iff s) H0) as Hnan.
    rewrite (min_all_nan s Hnan), (min_all_nan s'); [split; reflexivity|].
    intros d Hd; apply Hnan.
    apply Permutation_in with (l := s'); [apply Permutation_sym; exact Hp|exact Hd].
  - right; destruct (count_positive s Hpos) as (d & Hd & Hn).
    destruct (min_skipna s) as (Hin & Hnum & Hlow); [exists d; split; assumption|].
    destruct (min_skipna s') as (Hin' & Hnum' & Hlow').
    { exists d; split; [apply Permutation_in with (l := s); assumption|exact Hn]. }
    apply leb_antisym.
    + apply Hlow; [|exact Hnum'].
      apply Permutation_in with (l := s'); [apply Permutation_sym; exact Hp|exact Hin'].
    + apply Hlow'; [|exact Hnum].
      apply Permutation_in with (l := s); assumption.
Qed.

Lemma agree_leb (x y t : float) : agree x y -> leb x t = leb y t.
Proof.
  intros [(Hx & Hy)|H]; [|apply eqb_leb_same; exact H].
  destruct x; try discriminate Hx; destruct y; try discriminate Hy; reflexivity.
Qed.

Lemma agree_ltb (x y t : float) : agree x y -> ltb x t = ltb y t.
Proof.
  intros [(Hx & Hy)|H]; [|apply eqb_ltb_same; exact H].
  destruct x; try discriminate Hx; destruct y; try discriminate Hy; reflexivity.
Qed.

Lemma agree_div (x y : float) (my : positive) (ey : Z) :
  agree x y -> agree (div x (S754_finite false my ey)) (div y (S754_finite false my ey)).
Proof.
  intros [(Hx & Hy)|H]; [left|right; apply div_eqb; exact H].
  destruct x; try discriminate Hx; destruct y; try discriminate Hy; split; reflexivity.
Qed.

End SeriesOrder.

(** ** Python exceptions *)

Inductive exception : Type :=
| ValueError (msg : string)
| AttributeError (msg : string)
| TypeError (msg : string).

Inductive result (A : Type) : Type :=
| Ok (a : A)
| Raise (e : exception).

Arguments Ok {A} a.
Arguments Raise {A} e.

Definition bind {A B : Type} (c : result A) (k : A -> result B) : result B :=
  match c with
  | Ok a => k a
  | Raise e => Raise e
  end.

Notation "x <- c ;; k" := (bind c (fun x => k))
  (at level 61, c at next level, right associativity).

Fixpoint for_each {A B : Type} (body : A -> result B) (l : list A) : result (list B) :=
  match l with
  | [] => Ok []
  | a :: l' => b <- body a ;; bs <- for_each body l' ;; Ok (b :: bs)
  end.

(** EPSG code of a coordinate reference system. *)
Definition epsg := Z.

(** ** A planar geometry engine for concrete runs

    The theorems below hold for any geometry engine.  To run the notebook
    on concrete layers, this module provides a small one: points, lines,
    rings and multi-part geometries over binary64 coordinates; the
    distance between two points is [sqrt (dx*dx + dy*dy)] and the distance
    from a point to a line is the least distance to its segments; the
    centroid of a geometry is the mean of its vertices (the area centroid
    for the rectangles used below); EPSG:4326 and EPSG:3857 are related by
    a fixed scale of 131072 m per degree.  It stands in for shapely and
    pyproj in the examples only. *)

Module Planar.

Definition vertex : Type := (float * float)%type.

Inductive shape : Type :=
| Point (v : vertex)
| LineString (path : list vertex)
| Polygon (ring : list vertex)
| MultiPoint (members : list vertex)
| MultiPolygon (members : list (list vertex)).

Definition get_parts (g : shape) : list shape :=
  match g with
  | MultiPoint members => map Point members
  | MultiPolygon members => map Polygon members
  | _ => [g]
  end.

Definition metres_per_degree : float := of_Z 131072%Z.

Definition scale_vertex (k : float -> float) (v : vertex) : vertex :=
  (k (fst v), k (snd v)).

Definition scale (k : float -> float) (g : shape) : shape :=
  match g with
  | Point v => Point (scale_vertex k v)
  | LineString path => LineString (map (scale_vertex k) path)
  | Polygon ring => Polygon (map (scale_vertex k) ring)
  | MultiPoint members => MultiPoint (map (scale_vertex k) members)
  | MultiPolygon members => MultiPolygon (map (map (scale_vertex k)) members)
  end.

Definition transform (source target : epsg) (g : shape) : shape :=
  if Z.eqb source 4326%Z then scale (fun c => mul c metres_per_degree) g
  else if Z.eqb target 4326%Z then scale (fun c => div c metres_per_degree) g
  else g.

Definition vertices (g : shape) : list vertex :=
  match g with
  | Point v => [v]
  | LineString path => path
  | Polygon ring => ring
  | MultiPoint members => members
  | MultiPolygon members => concat members
  end.

Definition centroid (g : shape) : shape :=
  let vs := vertices g in
  let n := of_nat (length vs) in
  Point (div (fold_left add (map fst vs) zero) n,
         div (fold_left add (map snd vs) zero) n).

(** Distance from [p] to the segment from [a] to [b]: to the nearer end
    when the projection of [p] falls outside the segment, to the line
    through [a] and [b] otherwise. *)
Definition point_to_segment (p a b : vertex) : float :=
  let to_end (e : vertex) :=
    let dx := sub (fst p) (fst e) in
    let dy := sub (snd p) (snd e) in
    sqrt (add (mul dx dx) (mul dy dy)) in
  if eqb (fst a) (fst b) && eqb (snd a) (snd b) then to_end a
  else
    let ux := sub (fst b) (fst a) in
    let uy := sub (snd b) (snd a) in
    let len2 := add (mul ux ux) (mul uy uy) in
    let r := div (add (mul (sub (fst p) (fst a)) ux)
                      (mul (sub (snd p) (snd a)) uy)) len2 in
    if leb r zero then to_end a
    else if leb (of_Z 1%Z) r then to_end b
    else
      let s := div (sub (mul (sub (snd a) (snd p)) ux)
                        (mul (sub (fst a) (fst p)) uy)) len2 in
      mul (SFabs s) (sqrt len2).

Fixpoint point_to_path (p a : vertex) (rest : list vertex) : float :=
  match rest with
  | [] => point_to_segment p a a
  | [b] => point_to_segment p a b
  | b :: rest' =>
      let d := point_to_segment p a b in
      let d' := point_to_path p b rest' in
      if ltb d' d then d' else d
  end.

Definition distance (a b : shape) : float :=
  match a, b with
  | Point (xa, ya), Point (xb, yb) =>
      let dx := sub xa xb in
      let dy := sub ya yb in
      sqrt (add (mul dx dx) (mul dy dy))
  | Point p, LineString (a :: rest) => point_to_path p a rest
  | _, _ => nan
  end.

Definition point_xy (g : shape) : option (float * float) :=
  match g with
  | Point v => Some v
  | _ => None
  end.

Definition pt (x y : Z) : shape := Point (of_Z x, of_Z y).

Definition ring_of_square (x y side : Z) : list vertex :=
  [(of_Z x, of_Z y); (of_Z x, of_Z (y + side));
   (of_Z (x + side), of_Z (y + side)); (of_Z (x + side), of_Z y)].

Definition square (x y side : Z) : shape := Polygon (ring_of_square x y side).

End Planar.

(** ** The notebook *)

Inductive colour : Type := red | orange.

Section Notebook.

(** *** The geometry engine

    [Geom] is a shapely geometry.  [get_parts] lists its single-part
    geometries (one for a Point or a Polygon, one per member for a
    multi-part geometry), [transform] is pyproj's change of coordinates,
    [centroid] and [distance] are shapely's, and [point_xy] gives the
    [x] and [y] of a Point and nothing for any other geometry. *)

Variable Geom : Type.
Variable get_parts : Geom -> list Geom.
Variable transform : epsg -> epsg -> Geom -> Geom.
Variable centroid : Geom -> Geom.
Variable distance : Geom -> Geom -> float.
Variable point_xy : Geom -> option (float * float).

(** *** Frames

    A row carries its index label, its active geometry, the properties
    read from the GeoJSON feature and the column the notebook adds to
    the frame ([centroid] for the districts, [nearest_dist] for the
    turbines; no column yet when the type is [unit]). *)

Record row (X : Type) : Type := {
  index : Z;
  geometry : Geom;
  properties : list (string * string);
  column : X
}.

Record GeoDataFrame (X : Type) : Type := {
  crs : option epsg;
  rows : list (row X)
}.

Definition set_geometry {X : Type} (r : row X) (g : Geom) : row X :=
  {| index := index r; geometry := g; properties := properties r;
     column := column r |}.

Definition set_column {X Y : Type} (r : row X) (y : Y) : row Y :=
  {| index := index r; geometry := geometry r; properties := properties r;
     column := y |}.

(** [df.explode(index_parts=False)]: one row per part, the index label and
    the other columns repeated. *)
Definition explode {X : Type} (df : GeoDataFrame X) : GeoDataFrame X :=
  {| crs := crs df;
     rows := flat_map (fun r => map (set_geometry r) (get_parts (geometry r)))
                      (rows df) |}.

(** [df.to_crs(epsg=target)]: only the active geometry column changes. *)
Definition to_crs {X : Type} (target : epsg) (df : GeoDataFrame X)
  : result (GeoDataFrame X) :=
  match crs df with
  | None => Raise (ValueError "Cannot transform naive geometries.  Please set a crs on the object first.")
  | Some source =>
      if Z.eqb source target then Ok df
      else Ok {| crs := Some target;
                 rows := map (fun r => set_geometry r (transform source target (geometry r)))
                             (rows df) |}
  end.

(** [df[name] = f(row)] for every row. *)
Definition assign {X Y : Type} (f : row X -> Y) (df : GeoDataFrame X)
  : GeoDataFrame Y :=
  {| crs := crs df; rows := map (fun r => set_column r (f r)) (rows df) |}.

(** [df[mask]]: the rows where the mask holds, in order. *)
Definition select_rows {X : Type} (mask : row X -> bool) (df : GeoDataFrame X)
  : GeoDataFrame X :=
  {| crs := crs df; rows := filter mask (rows df) |}.

(** *** Cell 1: distances, selection and map *)

(** [cities['centroid'] = cities.geometry.centroid] *)
Definition with_centroid (cities : GeoDataFrame unit) : GeoDataFrame Geom :=
  assign (fun r => centroid (geometry r)) cities.

(** [cities['centroid'].distance(x)] *)
Definition centroid_distances (cities : GeoDataFrame Geom) (x : Geom) : list float :=
  map (fun c => distance (column c) x) (rows cities).

(** [lambda x: cities['centroid'].distance(x).min() / 1000] *)
Definition nearest (cities : GeoDataFrame Geom) (x : Geom) : float :=
  div (Series.min (centroid_distances cities x)) (of_Z 1000%Z).

(** [turbines['nearest_dist'] = turbines.geometry.apply(...)]: one float
    per row.  The dtype of the new column is inferred from the values: a
    frame with at least one row gets a float64 column, and a frame with no
    row gets an empty column that keeps the geometry dtype of
    [turbines.geometry] (see [le_mask]). *)
Definition with_nearest_dist (cities : GeoDataFrame Geom)
  (turbines : GeoDataFrame unit) : GeoDataFrame float :=
  assign (fun r => nearest cities (geometry r)) turbines.

Definition nearest_dist (r : row float) : float := column r.

(** Lines 100-113: both layers exploded and reprojected, centroids and
    nearest distances added. *)
Definition prepare (turbines_file cities_file : GeoDataFrame unit)
  : result (GeoDataFrame float * GeoDataFrame Geom) :=
  let turbines := explode turbines_file in
  let cities := explode cities_file in
  turbines <- to_crs 3857%Z turbines ;;
  cities <- to_crs 3857%Z cities ;;
  let cities := with_centroid cities in
  let turbines := with_nearest_dist cities turbines in
  Ok (turbines, cities).

(** [turbines['nearest_dist'] <= threshold]: the boolean mask of line 116.
    On a frame with no row the [nearest_dist] column has the geometry
    dtype, which does not support the comparison. *)
Definition le_mask (threshold : float) (turbines : GeoDataFrame float)
  : result (list bool) :=
  match rows turbines with
  | [] => Raise (TypeError "'<=' not supported between instances of 'GeometryArray' and 'int'")
  | rs => Ok (map (fun r => leb (nearest_dist r) threshold) rs)
  end.

(** [turbines[mask]] for the mask [nearest_dist <= threshold] of a float64
    column: the rows within the threshold, in order. *)
Definition within (threshold : float) (turbines : GeoDataFrame float)
  : GeoDataFrame float :=
  select_rows (fun r => leb (nearest_dist r) threshold) turbines.

(** Lines 116-119: the mask is computed, the rows within the threshold are
    taken and brought back to EPSG:4326. *)
Definition select (threshold : float) (turbines : GeoDataFrame float)
  : result (GeoDataFrame float) :=
  _ <- le_mask threshold turbines ;;
  to_crs 4326%Z (within threshold turbines).

(** Lines 125-129: red below the near band, orange otherwise. *)
Definition color (near_band : float) (dist : float) : colour :=
  if ltb dist near_band then red else orange.

Record CircleMarker : Type := {
  location : float * float;   (* [row.geometry.y, row.geometry.x] *)
  marker_color : colour;
  popup : float               (* the distance printed in the popup *)
}.

Definition marker (near_band : float) (r : row float) : result CircleMarker :=
  let dist := nearest_dist r in
  let color := color near_band dist in
  match point_xy (geometry r) with
  | Some (x, y) => Ok {| location := (y, x); marker_color := color; popup := dist |}
  | None => Raise (AttributeError "geometry has no attribute y")
  end.

(** Lines 123-139: one marker per retained row. *)
Definition draw (near_band : float) (close_turbines : GeoDataFrame float)
  : result (list CircleMarker) :=
  for_each (marker near_band) (rows close_turbines).

(** Number of markers drawn red, that is of rows classified near. *)
Definition near_count (markers : list CircleMarker) : nat :=
  length (filter (fun mk => match marker_color mk with red => true | orange => false end)
                 markers).

(** The constants of the notebook. *)
Definition thresholdKm : float := of_Z 5%Z.
Definition nearBandKm : float := of_Z 2%Z.

Record cell1 : Type := {
  turbines : GeoDataFrame float;
  cities : GeoDataFrame Geom;
  close_turbines : GeoDataFrame float;
  m : list CircleMarker
}.

Definition analysis (turbines_file cities_file : GeoDataFrame unit) : result cell1 :=
  tc <- prepare turbines_file cities_file ;;
  close <- select thresholdKm (fst tc) ;;
  markers <- draw nearBandKm close ;;
  Ok {| turbines := fst tc; cities := snd tc; close_turbines := close; m := markers |}.

(** *** Cell 3: the printed summary *)

Record summary : Type := {
  number_within : nat;        (* [len(close_turbines)] *)
  average_distance : float;   (* [close_turbines['nearest_dist'].mean()] *)
  minimum_distance : float;   (* [.min()] *)
  maximum_distance : float    (* [.max()] *)
}.

Definition summarise (close_turbines : GeoDataFrame float) : summary :=
  let dists := map nearest_dist (rows close_turbines) in
  {| number_within := length (rows close_turbines);
     average_distance := Series.mean dists;
     minimum_distance := Series.min dists;
     maximum_distance := Series.max dists |}.

Definition notebook (turbines_file cities_file : GeoDataFrame unit)
  : result (cell1 * summary) :=
  c <- analysis turbines_file cities_file ;;
  Ok (c, summarise (close_turbines c)).

(** *** Frames: what the operations keep *)

Lemma rows_explode_length (X : Type) (df : GeoDataFrame X) :
  length (rows (explode df)) =
  list_sum (map (fun r => length (get_parts (geometry r))) (rows df)).
Proof.
  unfold explode; simpl.
  induction (rows df) as [|r rs IH]; simpl; [reflexivity|].
  rewrite length_app, length_map, IH; reflexivity.
Qed.

Lemma explode_single_part (X : Type) (df : GeoDataFrame X) :
  (forall r, In r (rows df) -> get_parts (geometry r) = [geometry r]) ->
  explode df = df.
Proof.
  destruct df as [c rs]; unfold explode; simpl; intros H; f_equal.
  induction rs as [|r rs IH]; simpl; [reflexivity|].
  rewrite (H r) by (left; reflexivity); simpl.
  rewrite IH by (intros r' Hr'; apply H; right; exact Hr').
  destruct r; reflexivity.
Qed.

Lemma explode_geometries (X : Type) (df : GeoDataFrame X) :
  map (@geometry X) (rows (explode df)) =
  flat_map get_parts (map (@geometry X) (rows df)).
Proof.
  unfold explode; simpl.
  induction (rows df) as [|r rs IH]; simpl; [reflexivity|].
  rewrite map_app, map_map, IH; simpl. rewrite map_id; reflexivity.
Qed.

Lemma explode_nonempty (X : Type) (df : GeoDataFrame X) :
  rows df <> [] ->
  (forall r, In r (rows df) -> get_parts (geometry r) <> []) ->
  rows (explode df) <> [].
Proof.
  unfold explode; simpl.
  destruct (rows df) as [|r rs]; [intros H; contradiction H; reflexivity|].
  intros _ H; simpl.
  specialize (H r (or_introl eq_refl)).
  destruct (get_parts (geometry r)); [contradiction H; reflexivity|].
  simpl; discriminate.
Qed.

(** The geometry a row of a frame in [source] has after [to_crs(target)]. *)
Definition reprojected (source target : epsg) (g : Geom) : Geom :=
  if Z.eqb source target then g else transform source target g.

Lemma to_crs_spec (X : Type) (target : epsg) (df df' : GeoDataFrame X) :
  to_crs target df = Ok df' ->
  exists source,
    crs df = Some source /\ crs df' = Some target /\
    rows df' = map (fun r => set_geometry r (reprojected source target (geometry r)))
                   (rows df).
Proof.
  unfold to_crs, reprojected.
  destruct (crs df) as [source|] eqn:Hcrs; [|discriminate].
  destruct (Z.eqb source target) eqn:Heq; intros H; injection H as <-;
    exists source; rewrite Heq; simpl; repeat split.
  - apply Z.eqb_eq in Heq; subst; exact Hcrs.
  - induction (rows df) as [|r rs IH]; simpl; [reflexivity|].
    rewrite <- IH; destruct r; reflexivity.
Qed.

Lemma to_crs_defined (X : Type) (target source : epsg) (df : GeoDataFrame X) :
  crs df = Some source -> exists df', to_crs target df = Ok df'.
Proof.
  unfold to_crs; intros ->.
  destruct (Z.eqb source target); eexists; reflexivity.
Qed.

Lemma to_crs_columns (X : Type) (target : epsg) (df df' : GeoDataFrame X) :
  to_crs target df = Ok df' ->
  map (@column X) (rows df') = map (@column X) (rows df) /\
  map (@index X) (rows df') = map (@index X) (rows df) /\
  map (@properties X) (rows df') = map (@properties X) (rows df).
Proof.
  intros H; destruct (to_crs_spec _ _ H) as (source & _ & _ & ->).
  rewrite !map_map; simpl; repeat split; reflexivity.
Qed.

Lemma to_crs_length (X : Type) (target : epsg) (df df' : GeoDataFrame X) :
  to_crs target df = Ok df' -> length (rows df') = length (rows df).
Proof.
  intros H; destruct (to_crs_spec _ _ H) as (source & _ & _ & ->).
  apply length_map.
Qed.

(** *** What [prepare] computes *)

Lemma prepare_spec (P R : GeoDataFrame unit) (T : GeoDataFrame float)
  (C : GeoDataFrame Geom) :
  prepare P R = Ok (T, C) ->
  exists P' R',
    to_crs 3857%Z (explode P) = Ok P' /\
    to_crs 3857%Z (explode R) = Ok R' /\
    C = with_centroid R' /\ T = with_nearest_dist C P'.
Proof.
  unfold prepare.
  destruct (to_crs 3857%Z (explode P)) as [P'|e]; simpl; [|discriminate].
  destruct (to_crs 3857%Z (explode R)) as [R'|e]; simpl; [|discriminate].
  intros H; injection H as <- <-.
  exists P', R'; repeat split; reflexivity.
Qed.

Lemma prepare_defined (P R : GeoDataFrame unit) (sp sr : epsg) :
  crs P = Some sp -> crs R = Some sr ->
  exists T C, prepare P R = Ok (T, C).
Proof.
  intros HP HR; unfold prepare.
  destruct (@to_crs_defined unit 3857%Z sp (explode P) HP) as (P' & ->).
  destruct (@to_crs_defined unit 3857%Z sr (explode R) HR) as (R' & ->).
  simpl; eexists; eexists; reflexivity.
Qed.

Lemma prepare_nearest (P R : GeoDataFrame unit) (T : GeoDataFrame float)
  (C : GeoDataFrame Geom) :
  prepare P R = Ok (T, C) ->
  forall t, In t (rows T) -> nearest_dist t = nearest C (geometry t).
Proof.
  intros H; destruct (prepare_spec _ _ H) as (P' & R' & _ & _ & _ & ->).
  unfold with_nearest_dist, assign; simpl; intros t Ht.
  apply in_map_iff in Ht as (r & <- & _); reflexivity.
Qed.

Lemma prepare_length (P R : GeoDataFrame unit) (T : GeoDataFrame float)
  (C : GeoDataFrame Geom) :
  prepare P R = Ok (T, C) ->
  length (rows T) = length (rows (explode P)) /\
  map (@index float) (rows T) = map (@index unit) (rows (explode P)).
Proof.
  intros H; destruct (prepare_spec _ _ H) as (P' & R' & HP & _ & _ & ->).
  unfold with_nearest_dist, assign; simpl.
  rewrite length_map, map_map; simpl.
  destruct (to_crs_columns _ _ HP) as (_ & Hi & _).
  rewrite (to_crs_length _ _ HP); split; [reflexivity|].
  exact Hi.
Qed.

Lemma prepare_centroids (P R : GeoDataFrame unit) (T : GeoDataFrame float)
  (C : GeoDataFrame Geom) (sr : epsg) :
  prepare P R = Ok (T, C) -> crs R = Some sr ->
  map (@column Geom) (rows C) =
  map (fun g => centroid (reprojected sr 3857%Z g))
      (flat_map get_parts (map (@geometry unit) (rows R))).
Proof.
  intros H Hsr; destruct (prepare_spec _ _ H) as (P' & R' & _ & HR & -> & _).
  destruct (to_crs_spec _ _ HR) as (source & Hs & _ & Hrows).
  simpl in Hs; rewrite Hsr in Hs; injection Hs as <-.
  unfold with_centroid, assign; simpl.
  rewrite Hrows, <- explode_geometries, !map_map; simpl; reflexivity.
Qed.

Lemma prepare_crs (P R : GeoDataFrame unit) (T : GeoDataFrame float)
  (C : GeoDataFrame Geom) :
  prepare P R = Ok (T, C) -> crs T = Some 3857%Z /\ crs C = Some 3857%Z.
Proof.
  intros H; destruct (prepare_spec _ _ H) as (P' & R' & HP & HR & -> & ->).
  destruct (to_crs_spec _ _ HP) as (? & _ & HcP & _).
  destruct (to_crs_spec _ _ HR) as (? & _ & HcR & _).
  simpl; split; assumption.
Qed.

Lemma prepare_cities_nonempty (P R : GeoDataFrame unit) (T : GeoDataFrame float)
  (C : GeoDataFrame Geom) :
  prepare P R = Ok (T, C) ->
  rows R <> [] ->
  (forall r, In r (rows R) -> get_parts (geometry r) <> []) ->
  rows C <> [].
Proof.
  intros H Hne Hparts.
  destruct (prepare_spec _ _ H) as (P' & R' & _ & HR & -> & _).
  pose proof (explode_nonempty R Hne Hparts) as Hex.
  pose proof (to_crs_length _ _ HR) as Hlen.
  unfold with_centroid, assign; simpl.
  destruct (rows R') as [|r' rs']; simpl; [|discriminate].
  destruct (rows (explode R)); [contradiction Hex; reflexivity|discriminate Hlen].
Qed.

Lemma centroid_distances_columns (C : GeoDataFrame Geom) (x : Geom) :
  centroid_distances C x =
  map (fun c => distance c x) (map (@column Geom) (rows C)).
Proof. unfold centroid_distances; rewrite map_map; reflexivity. Qed.

Lemma centroid_distances_nonempty (C : GeoDataFrame Geom) (x : Geom) :
  rows C <> [] -> centroid_distances C x <> [].
Proof.
  unfold centroid_distances; destruct (rows C); simpl;
    [intros H; contradiction H; reflexivity|discriminate].
Qed.

Lemma within_distances (threshold : float) (T : GeoDataFrame float) :
  map nearest_dist (rows (within threshold T)) =
  filter (fun d => leb d threshold) (map nearest_dist (rows T)).
Proof.
  unfold within, select_rows; simpl.
  induction (rows T) as [|t ts IH]; simpl; [reflexivity|].
  destruct (leb (nearest_dist t) threshold); simpl; rewrite IH; reflexivity.
Qed.

(** *** Claims about the distance stage *)


(** C2. Every row of the turbine layer receives a distance: when the
    turbine features are single-part geometries (points), the frame that
    carries [nearest_dist] has as many rows as the input layer, with the
    same index labels in the same order, whatever the districts are; the
    threshold only selects rows of that frame afterwards and leaves the
    frame itself complete. *)
Theorem every_point_gets_a_distance (P R : GeoDataFrame unit) (sp sr : epsg) :
  crs P = Some sp -> crs R = Some sr ->
  (forall p, In p (rows P) -> get_parts (geometry p) = [geometry p]) ->
  exists T C,
    prepare P R = Ok (T, C) /\
    length (rows T) = length (rows P) /\
    map (@index float) (rows T) = map (@index unit) (rows P) /\
    forall threshold,
      map nearest_dist (rows (within threshold T)) =
      filter (fun d => leb d threshold) (map nearest_dist (rows T)).
Proof.
  intros HP HR Hsingle.
  destruct (prepare_defined P R HP HR) as (T & C & H).
  exists T, C; split; [exact H|].
  destruct (prepare_length _ _ H) as (Hlen & Hidx).
  rewrite (explode_single_part P Hsingle) in Hlen, Hidx.
  repeat split; try assumption.
  intros threshold; apply within_distances.
Qed.

Lemma prepare_geometries (P R : GeoDataFrame unit) (T : GeoDataFrame float)
  (C : GeoDataFrame Geom) (sp : epsg) :
  prepare P R = Ok (T, C) -> crs P = Some sp ->
  map (@geometry float) (rows T) =
  map (reprojected sp 3857%Z) (flat_map get_parts (map (@geometry unit) (rows P))).
Proof.
  intros H Hsp; destruct (prepare_spec _ _ H) as (P' & R' & HP & _ & _ & ->).
  destruct (to_crs_spec _ _ HP) as (source & Hs & _ & Hrows).
  simpl in Hs; rewrite Hsp in Hs; injection Hs as <-.
  unfold with_nearest_dist, assign; simpl.
  rewrite Hrows, <- explode_geometries, !map_map; simpl; reflexivity.
Qed.

Lemma prepare_part_distances (P R : GeoDataFrame unit) (T : GeoDataFrame float)
  (C : GeoDataFrame Geom) (sr : epsg) (x : Geom) :
  prepare P R = Ok (T, C) -> crs R = Some sr ->
  centroid_distances C x =
  map (fun g => distance (centroid (reprojected sr 3857%Z g)) x)
      (flat_map get_parts (map (@geometry unit) (rows R))).
Proof.
  intros H Hsr.
  rewrite centroid_distances_columns, (prepare_centroids _ _ H Hsr), map_map.
  reflexivity.
Qed.

(** C8. The district layer is exploded before the centroids are taken:
    the centroid column holds, in order, the centroid of every part of
    every district (one per part, so their number is the total number of
    parts).  The [nearest_dist] of a turbine row is the minimum, divided
    by 1000, of its distances to the centroids of all these parts, and
    every part takes part in that minimum: its distance is one of the
    distances reduced and, when it is a number, the minimum is a number
    not greater than it. *)
Theorem one_centroid_per_part (P R : GeoDataFrame unit)
  (T : GeoDataFrame float) (C : GeoDataFrame Geom) (sr : epsg) :
  prepare P R = Ok (T, C) -> crs R = Some sr ->
  map (@column Geom) (rows C) =
    map (fun g => centroid (reprojected sr 3857%Z g))
        (flat_map get_parts (map (@geometry unit) (rows R))) /\
  length (rows C) =
    list_sum (map (fun r => length (get_parts (geometry r))) (rows R)) /\
  forall t, In t (rows T) ->
    let part_distances :=
      map (fun g => distance (centroid (reprojected sr 3857%Z g)) (geometry t))
          (flat_map get_parts (map (@geometry unit) (rows R))) in
    nearest_dist t = div (Series.min part_distances) (of_Z 1000%Z) /\
    forall r g,
      In r (rows R) -> In g (get_parts (geometry r)) ->
      let d := distance (centroid (reprojected sr 3857%Z g)) (geometry t) in
      In d part_distances /\
      (is_nan d = false ->
       In (Series.min part_distances) part_distances /\
       leb (Series.min part_distances) d = true /\
       is_nan (nearest_dist t) = false).
Proof.
  intros H Hsr.
  pose proof (prepare_centroids _ _ H Hsr) as Hcol.
  split; [exact Hcol|split].
  - destruct (prepare_spec _ _ H) as (P' & R' & _ & HR & -> & _).
    unfold with_centroid, assign; simpl.
    rewrite length_map, (to_crs_length _ _ HR); apply rows_explode_length.
  - intros t Ht part_distances.
    assert (Hnear : nearest_dist t = div (Series.min part_distances) (of_Z 1000%Z)).
    { rewrite (prepare_nearest _ _ H t Ht); unfold nearest, part_distances.
      rewrite (prepare_part_distances _ _ (geometry t) H Hsr); reflexivity. }
    split; [exact Hnear|].
    intros r g Hr Hg d.
    assert (Hd : In d part_distances).
    { unfold part_distances; apply in_map_iff; exists g; split; [reflexivity|].
      apply in_flat_map; exists (geometry r); split; [|exact Hg].
      apply in_map; exact Hr. }
    split; [exact Hd|].
    intros Hnum.
    destruct (min_skipna part_distances) as (Hin & Hmin & Hlow);
      [exists d; split; assumption|].
    split; [exact Hin|split; [apply Hlow; assumption|]].
    rewrite Hnear.
    change (of_Z 1000%Z) with (S754_finite false 8796093022208000 (-43)).
    apply div_number; exact Hmin.
Qed.

(** C9. The distances are measured on reprojected geometries only: after
    [prepare] both frames are in EPSG:3857, the turbine geometries are the
    parts of the input turbines taken from their CRS to EPSG:3857, the
    centroids are those of the parts of the input districts taken from
    their CRS to EPSG:3857, and every [nearest_dist] is the minimum of the
    distances between these, divided by 1000.  For a non-empty district
    layer whose distances to the turbines are non-negative numbers, every
    [nearest_dist] is [>= 0]. *)
Theorem distances_nonnegative (P R : GeoDataFrame unit)
  (T : GeoDataFrame float) (C : GeoDataFrame Geom) :
  prepare P R = Ok (T, C) ->
  rows R <> [] ->
  (forall r, In r (rows R) -> get_parts (geometry r) <> []) ->
  (forall c t, In c (rows C) -> In t (rows T) ->
     leb zero (distance (column c) (geometry t)) = true) ->
  exists sp sr,
    crs P = Some sp /\ crs R = Some sr /\
    crs T = Some 3857%Z /\ crs C = Some 3857%Z /\
    map (@geometry float) (rows T) =
      map (reprojected sp 3857%Z) (flat_map get_parts (map (@geometry unit) (rows P))) /\
    map (@column Geom) (rows C) =
      map (fun g => centroid (reprojected sr 3857%Z g))
          (flat_map get_parts (map (@geometry unit) (rows R))) /\
    forall t, In t (rows T) ->
      nearest_dist t =
        div (Series.min (map (fun c => distance c (geometry t))
                             (map (@column Geom) (rows C))))
            (of_Z 1000%Z) /\
      leb zero (nearest_dist t) = true.
Proof.
  intros H Hne Hparts Hpos.
  destruct (prepare_crs _ _ H) as (HcT & HcC).
  destruct (prepare_spec _ _ H) as (P' & R' & HP & HR & _ & _).
  destruct (to_crs_spec _ _ HP) as (sp & Hsp & _ & _); simpl in Hsp.
  destruct (to_crs_spec _ _ HR) as (sr & Hsr & _ & _); simpl in Hsr.
  exists sp, sr.
  split; [exact Hsp|split; [exact Hsr|split; [exact HcT|split; [exact HcC|]]]].
  split; [apply (prepare_geometries _ _ H Hsp)|].
  split; [apply (prepare_centroids _ _ H Hsr)|].
  intros t Ht; rewrite <- centroid_distances_columns.
  split; [apply (prepare_nearest _ _ H t Ht)|].
  rewrite (prepare_nearest _ _ H t Ht); unfold nearest.
  change (of_Z 1000%Z) with (S754_finite false 8796093022208000 (-43)).
  apply div_nonneg.
  assert (Hnum : all_numbers (centroid_distances C (geometry t))).
  { intros d Hd; unfold centroid_distances in Hd.
    apply in_map_iff in Hd as (c & <- & Hc).
    apply leb_not_nan_r with (x := zero); apply Hpos; assumption. }
  pose proof (prepare_cities_nonempty _ _ H Hne Hparts) as HC.
  destruct (@min_numbers (centroid_distances C (geometry t))) as (Hin & _);
    [apply centroid_distances_nonempty; exact HC|exact Hnum|].
  unfold centroid_distances in Hin at 2.
  apply in_map_iff in Hin as (c & <- & Hc).
  apply Hpos; assumption.
Qed.

(** *** Selection, markers and summary *)


Lemma filter_length_le (A : Type) (p q : A -> bool) (l : list A) :
  (forall a, In a l -> p a = true -> q a = true) ->
  length (filter p l) <= length (filter q l).
Proof.
  induction l as [|a l IH]; simpl; intros H; [lia|].
  assert (IH' : length (filter p l) <= length (filter q l))
    by (apply IH; intros b Hb; apply H; right; exact Hb).
  destruct (p a) eqn:Hp.
  - rewrite (H a (or_introl eq_refl) Hp); simpl; lia.
  - destruct (q a); simpl; lia.
Qed.

Lemma filter_none (A : Type) (p : A -> bool) (l : list A) :
  (forall a, In a l -> p a = false) -> filter p l = [].
Proof.
  induction l as [|a l IH]; simpl; intros H; [reflexivity|].
  rewrite (H a (or_introl eq_refl)).
  apply IH; intros b Hb; apply H; right; exact Hb.
Qed.

Lemma kept_numbers (threshold : float) (ds : list float) :
  all_numbers (filter (fun d => leb d threshold) ds).
Proof.
  intros d Hd; apply filter_In in Hd as (_ & Hd).
  apply leb_not_nan_l with (y := threshold); exact Hd.
Qed.


Lemma select_inv (threshold : float) (T close : GeoDataFrame float) :
  select threshold T = Ok close ->
  rows T <> [] /\ to_crs 4326%Z (within threshold T) = Ok close.
Proof.
  unfold select, le_mask; destruct (rows T); simpl; [discriminate|].
  intros H; split; [discriminate|exact H].
Qed.

Lemma select_spec (threshold : float) (T close : GeoDataFrame float) :
  select threshold T = Ok close ->
  crs close = Some 4326%Z /\
  length (rows close) = length (rows (within threshold T)) /\
  map nearest_dist (rows close) = map nearest_dist (rows (within threshold T)) /\
  map (@index float) (rows close) = map (@index float) (rows (within threshold T)) /\
  map (@properties float) (rows close) =
    map (@properties float) (rows (within threshold T)).
Proof.
  intros H; apply select_inv in H as (_ & H).
  destruct (to_crs_spec _ _ H) as (source & _ & Hcrs & _).
  destruct (to_crs_columns _ _ H) as (Hcol & Hidx & Hprop).
  repeat split; try assumption.
  apply (to_crs_length _ _ H).
Qed.

Lemma select_defined (threshold : float) (T : GeoDataFrame float) (s : epsg) :
  crs T = Some s -> rows T <> [] -> exists close, select threshold T = Ok close.
Proof.
  intros H Hne; unfold select, le_mask.
  destruct (rows T) as [|t ts] eqn:Hrows; [contradiction Hne; reflexivity|]; simpl.
  apply to_crs_defined with (source := s); exact H.
Qed.

Lemma select_raises (threshold : float) (T : GeoDataFrame float) :
  rows T = [] -> exists msg, select threshold T = Raise (TypeError msg).
Proof.
  intros H; unfold select, le_mask; rewrite H; simpl; eexists; reflexivity.
Qed.

Lemma select_distances (threshold : float) (T close : GeoDataFrame float) :
  select threshold T = Ok close ->
  map nearest_dist (rows close) =
  filter (fun d => leb d threshold) (map nearest_dist (rows T)).
Proof.
  intros H; destruct (select_spec _ _ H) as (_ & _ & -> & _).
  apply within_distances.
Qed.

Lemma draw_spec (near_band : float) (df : GeoDataFrame float)
  (markers : list CircleMarker) :
  draw near_band df = Ok markers ->
  map marker_color markers =
    map (fun r => color near_band (nearest_dist r)) (rows df) /\
  map popup markers = map nearest_dist (rows df).
Proof.
  unfold draw; revert markers.
  induction (rows df) as [|r rs IH]; simpl; intros markers H.
  - injection H as <-; split; reflexivity.
  - unfold marker in H at 1.
    destruct (point_xy (geometry r)) as [[x y]|]; simpl in H; [|discriminate].
    destruct (for_each (marker near_band) rs) as [ms|e]; simpl in H; [|discriminate].
    injection H as <-; destruct (IH ms eq_refl) as (Hc & Hp); simpl.
    rewrite Hc, Hp; split; reflexivity.
Qed.

Lemma near_count_spec (near_band : float) (df : GeoDataFrame float)
  (markers : list CircleMarker) :
  draw near_band df = Ok markers ->
  near_count markers =
  length (filter (fun r => ltb (nearest_dist r) near_band) (rows df)).
Proof.
  intros H; destruct (draw_spec _ _ H) as (Hc & _); clear H.
  unfold near_count; revert markers Hc.
  induction (rows df) as [|r rs IH]; intros [|mk ms] Hc; simpl in Hc;
    try discriminate Hc; [reflexivity|].
  injection Hc as Hmk Hms; simpl; rewrite Hmk; unfold color at 1.
  destruct (ltb (nearest_dist r) near_band); simpl; rewrite (IH ms Hms);
    reflexivity.
Qed.

Lemma summarise_empty (close : GeoDataFrame float) :
  rows close = [] ->
  summarise close =
  {| number_within := 0; average_distance := nan;
     minimum_distance := nan; maximum_distance := nan |}.
Proof. unfold summarise; intros ->; reflexivity. Qed.

Lemma prepare_turbines_nonempty (P R : GeoDataFrame unit) (T : GeoDataFrame float)
  (C : GeoDataFrame Geom) :
  prepare P R = Ok (T, C) -> rows (explode P) <> [] -> rows T <> [].
Proof.
  intros H Hne; destruct (prepare_length _ _ H) as (Hlen & _).
  destruct (rows T); [|discriminate].
  destruct (rows (explode P)); [contradiction Hne; reflexivity|discriminate Hlen].
Qed.

(** When the distance frame has rows and none is within the threshold,
    the notebook runs to its end with nothing retained. *)
Lemma notebook_nothing_retained (P R : GeoDataFrame unit)
  (T : GeoDataFrame float) (C : GeoDataFrame Geom) :
  prepare P R = Ok (T, C) ->
  rows T <> [] ->
  (forall t, In t (rows T) -> leb (nearest_dist t) thresholdKm = false) ->
  exists close,
    rows close = [] /\
    notebook P R =
    Ok ({| turbines := T; cities := C; close_turbines := close; m := [] |},
        {| number_within := 0; average_distance := nan;
           minimum_distance := nan; maximum_distance := nan |}).
Proof.
  intros H Hne Hfar.
  destruct (prepare_crs _ _ H) as (HcT & _).
  destruct (select_defined thresholdKm T HcT Hne) as (close & Hsel).
  assert (Hrows : rows close = []).
  { destruct (select_spec _ _ Hsel) as (_ & Hlen & _).
    unfold within, select_rows in Hlen; simpl in Hlen.
    rewrite (filter_none _ _ Hfar) in Hlen.
    destruct (rows close); [reflexivity|discriminate Hlen]. }
  exists close; split; [exact Hrows|].
  unfold notebook, analysis; rewrite H; simpl; rewrite Hsel; simpl.
  unfold draw; rewrite Hrows; simpl.
  rewrite (summarise_empty _ Hrows); reflexivity.
Qed.

(** *** Claims about the selection, the bands and the summary *)


(** C4. A row whose distance equals the threshold is retained by the
    selection (with its index label and distance), and a row whose
    distance equals the near band is coloured orange (moderate), not red
    (near). *)
Theorem boundary_values (threshold near_band : float) (T close : GeoDataFrame float) :
  select threshold T = Ok close ->
  (forall t, In t (rows T) -> eqb (nearest_dist t) threshold = true ->
     In t (rows (within threshold T)) /\
     exists t', In t' (rows close) /\ index t' = index t /\
                nearest_dist t' = nearest_dist t) /\
  (forall r, eqb (nearest_dist r) near_band = true ->
     color near_band (nearest_dist r) = orange /\
     forall mk, marker near_band r = Ok mk -> marker_color mk = orange).
Proof.
  intros H; split.
  - intros t Ht Heq.
    assert (Hin : In t (rows (within threshold T))).
    { unfold within, select_rows; simpl; apply filter_In; split; [exact Ht|].
      apply eqb_leb; exact Heq. }
    split; [exact Hin|].
    apply select_inv in H as (_ & H); destruct (to_crs_spec _ _ H) as (source & _ & _ & ->).
    eexists; split; [apply in_map; exact Hin|split; reflexivity].
  - intros r Heq.
    assert (Hc : color near_band (nearest_dist r) = orange)
      by (unfold color; rewrite (eqb_not_ltb _ _ Heq); reflexivity).
    split; [exact Hc|].
    unfold marker; intros mk Hmk.
    destruct (point_xy (geometry r)) as [[x y]|]; [|discriminate Hmk].
    injection Hmk as <-; exact Hc.
Qed.

(** C5, as the notebook behaves: with an empty district layer and a
    turbine layer that has rows, nothing is raised; every turbine row
    receives NaN as its distance, no row is retained, no marker is drawn,
    and the summary is count 0 with NaN for the mean, the minimum and the
    maximum. *)
Theorem empty_regions_give_nan (P R : GeoDataFrame unit) (sp sr : epsg) :
  crs P = Some sp -> crs R = Some sr -> rows R = [] -> rows (explode P) <> [] ->
  exists c,
    notebook P R =
      Ok (c, {| number_within := 0; average_distance := nan;
                minimum_distance := nan; maximum_distance := nan |}) /\
    length (rows (turbines c)) = length (rows (explode P)) /\
    (forall t, In t (rows (turbines c)) -> nearest_dist t = nan) /\
    rows (close_turbines c) = [] /\ m c = [].
Proof.
  intros HP HR Hempty Hturbines.
  destruct (prepare_defined P R HP HR) as (T & C & H).
  assert (HC : rows C = []).
  { destruct (prepare_spec _ _ H) as (P' & R' & _ & HR' & -> & _).
    pose proof (to_crs_length _ _ HR') as Hlen.
    unfold explode in Hlen; simpl in Hlen; rewrite Hempty in Hlen; simpl in Hlen.
    unfold with_centroid, assign; simpl.
    destruct (rows R'); [reflexivity|discriminate Hlen]. }
  assert (Hnan : forall t, In t (rows T) -> nearest_dist t = nan).
  { intros t Ht; rewrite (prepare_nearest _ _ H t Ht).
    unfold nearest, centroid_distances; rewrite HC; reflexivity. }
  destruct (notebook_nothing_retained _ _ H) as (close & Hrows & Hrun).
  { apply (prepare_turbines_nonempty _ _ H Hturbines). }
  { intros t Ht; rewrite (Hnan t Ht); reflexivity. }
  eexists; split; [exact Hrun|]; simpl.
  repeat split; try assumption.
  apply (prepare_length _ _ H).
Qed.


(** C7. Lowering the threshold never increases the number of retained
    rows (the count printed by the summary), and lowering the near band
    never increases the number of red markers. *)
Theorem counts_monotone (T : GeoDataFrame float) (t1 t2 n1 n2 : float) :
  leb t1 t2 = true -> leb n1 n2 = true ->
  length (rows (within t1 T)) <= length (rows (within t2 T)) /\
  (forall c1 c2, select t1 T = Ok c1 -> select t2 T = Ok c2 ->
     number_within (summarise c1) <= number_within (summarise c2)) /\
  (forall close ms1 ms2, draw n1 close = Ok ms1 -> draw n2 close = Ok ms2 ->
     near_count ms1 <= near_count ms2).
Proof.
  intros Ht Hn.
  assert (Hw : length (rows (within t1 T)) <= length (rows (within t2 T))).
  { unfold within, select_rows; simpl; apply filter_length_le.
    intros r _ Hr; eapply leb_trans; eassumption. }
  split; [exact Hw|split].
  - intros c1 c2 H1 H2; unfold summarise; simpl.
    destruct (select_spec _ _ H1) as (_ & -> & _).
    destruct (select_spec _ _ H2) as (_ & -> & _).
    exact Hw.
  - intros close ms1 ms2 H1 H2.
    rewrite (near_count_spec _ _ H1), (near_count_spec _ _ H2).
    apply filter_length_le.
    intros r _ Hlt; apply (ltb_leb_trans _ _ _ Hlt Hn).
Qed.

(** C10. Reprojecting the retained rows to EPSG:4326 changes their
    geometry only: the frame is in EPSG:4326 and its index labels,
    properties and distances are, row by row, those of the rows selected
    in EPSG:3857; hence the colours of the markers and the distances in
    their popups are those of the selected rows. *)
Theorem reprojection_keeps_distances (threshold near_band : float)
  (T close : GeoDataFrame float) :
  select threshold T = Ok close ->
  crs close = Some 4326%Z /\
  map nearest_dist (rows close) = map nearest_dist (rows (within threshold T)) /\
  map (@index float) (rows close) = map (@index float) (rows (within threshold T)) /\
  map (@properties float) (rows close) =
    map (@properties float) (rows (within threshold T)) /\
  map (fun r => color near_band (nearest_dist r)) (rows close) =
    map (fun r => color near_band (nearest_dist r)) (rows (within threshold T)) /\
  forall markers, draw near_band close = Ok markers ->
    map marker_color markers =
      map (fun r => color near_band (nearest_dist r)) (rows (within threshold T)) /\
    map popup markers = map nearest_dist (rows (within threshold T)).
Proof.
  intros H.
  destruct (select_spec _ _ H) as (Hcrs & _ & Hd & Hi & Hp).
  assert (Hcol : map (fun r => color near_band (nearest_dist r)) (rows close) =
                 map (fun r => color near_band (nearest_dist r))
                     (rows (within threshold T))).
  { rewrite <- (map_map nearest_dist (color near_band)), Hd, map_map; reflexivity. }
  repeat (split; [assumption|]).
  intros markers Hdraw; destruct (draw_spec _ _ Hdraw) as (Hc & Hpop).
  rewrite Hc, Hpop; split; assumption.
Qed.

(** *** Further properties: errors, markers and bands *)

Lemma notebook_inv (P R : GeoDataFrame unit) (c : cell1) (s : summary) :
  notebook P R = Ok (c, s) ->
  prepare P R = Ok (turbines c, cities c) /\
  select thresholdKm (turbines c) = Ok (close_turbines c) /\
  draw nearBandKm (close_turbines c) = Ok (m c) /\
  s = summarise (close_turbines c).
Proof.
  unfold notebook, analysis.
  destruct (prepare P R) as [[T C]|e]; simpl; [|discriminate].
  destruct (select thresholdKm T) as [close|e] eqn:Hsel; simpl; [|discriminate].
  destruct (draw nearBandKm close) as [ms|e] eqn:Hdraw; simpl; [|discriminate].
  intros H; injection H as <- <-; simpl; repeat split; assumption.
Qed.

Lemma select_within (threshold : float) (T close : GeoDataFrame float) :
  select threshold T = Ok close ->
  forall r, In r (rows close) -> leb (nearest_dist r) threshold = true.
Proof.
  intros H r Hr; pose proof (select_distances _ _ H) as Hd.
  assert (Hin : In (nearest_dist r) (map nearest_dist (rows close)))
    by (apply in_map; exact Hr).
  rewrite Hd in Hin; apply filter_In in Hin as (_ & Hle); exact Hle.
Qed.

(** What [draw] puts in each marker, row by row. *)
Definition marker_of (near_band : float) (mk : CircleMarker) (r : row float) : Prop :=
  point_xy (geometry r) = Some (snd (location mk), fst (location mk)) /\
  popup mk = nearest_dist r /\
  marker_color mk = color near_band (nearest_dist r).

Lemma draw_rows (near_band : float) (df : GeoDataFrame float)
  (markers : list CircleMarker) :
  draw near_band df = Ok markers ->
  Forall2 (marker_of near_band) markers (rows df).
Proof.
  unfold draw; revert markers.
  induction (rows df) as [|r rs IH]; simpl; intros markers H.
  - injection H as <-; constructor.
  - unfold marker in H at 1.
    destruct (point_xy (geometry r)) as [[x y]|] eqn:Hxy; simpl in H; [|discriminate].
    destruct (for_each (marker near_band) rs) as [ms|e]; simpl in H; [|discriminate].
    injection H as <-; constructor; [|apply IH; reflexivity].
    unfold marker_of; simpl; repeat split; exact Hxy.
Qed.

Lemma marker_row (near_band : float) (markers : list CircleMarker)
  (rs : list (row float)) :
  Forall2 (marker_of near_band) markers rs ->
  forall mk, In mk markers -> exists r, In r rs /\ marker_of near_band mk r.
Proof.
  induction 1 as [|mk0 r0 ms rs0 H0 _ IH]; intros mk Hmk; [destruct Hmk|].
  destruct Hmk as [<-|Hmk].
  - exists r0; split; [left; reflexivity|exact H0].
  - destruct (IH mk Hmk) as (r & Hr & Hm); exists r; split; [right|]; assumption.
Qed.

Lemma draw_defined (near_band : float) (df : GeoDataFrame float) :
  (forall r, In r (rows df) -> point_xy (geometry r) <> None) ->
  exists markers, draw near_band df = Ok markers.
Proof.
  unfold draw; induction (rows df) as [|r rs IH]; simpl; intros H.
  - eexists; reflexivity.
  - destruct IH as (ms & Hms); [intros r' Hr'; apply H; right; exact Hr'|].
    unfold marker at 1.
    destruct (point_xy (geometry r)) as [[x y]|] eqn:Hxy;
      [|contradiction (H r (or_introl eq_refl) Hxy)].
    simpl; rewrite Hms; simpl; eexists; reflexivity.
Qed.

Lemma draw_raises (near_band : float) (df : GeoDataFrame float) :
  (exists r, In r (rows df) /\ point_xy (geometry r) = None) ->
  exists msg, draw near_band df = Raise (AttributeError msg).
Proof.
  unfold draw; induction (rows df) as [|r rs IH]; simpl; intros (r0 & Hr0 & Hn);
    [destruct Hr0|].
  unfold marker at 1.
  destruct (point_xy (geometry r)) as [[x y]|] eqn:Hxy; simpl.
  - destruct Hr0 as [->|Hr0]; [rewrite Hn in Hxy; discriminate Hxy|].
    destruct IH as (msg & ->); [exists r0; split; assumption|].
    simpl; exists msg; reflexivity.
  - eexists; reflexivity.
Qed.

(** X2. With a CRS on both layers and at least one turbine row, the
    notebook reaches the map loop, and its outcome depends on the retained
    rows only: it runs to its end when every retained geometry is a Point,
    and raises an AttributeError when one of them is not. *)
Theorem map_needs_points (P R : GeoDataFrame unit) (sp sr : epsg) :
  crs P = Some sp -> crs R = Some sr -> rows (explode P) <> [] ->
  exists T C close,
    prepare P R = Ok (T, C) /\ select thresholdKm T = Ok close /\
    ((forall r, In r (rows close) -> point_xy (geometry r) <> None) ->
     exists markers,
       notebook P R =
       Ok ({| turbines := T; cities := C; close_turbines := close; m := markers |},
           summarise close)) /\
    ((exists r, In r (rows close) /\ point_xy (geometry r) = None) ->
     exists msg, notebook P R = Raise (AttributeError msg)).
Proof.
  intros HP HR Hturbines.
  destruct (prepare_defined P R HP HR) as (T & C & H).
  destruct (prepare_crs _ _ H) as (HcT & _).
  destruct (select_defined thresholdKm T HcT (prepare_turbines_nonempty _ _ H Hturbines))
    as (close & Hsel).
  exists T, C, close; split; [exact H|split; [exact Hsel|split]].
  - intros Hpts; destruct (draw_defined nearBandKm close Hpts) as (ms & Hms).
    exists ms; unfold notebook, analysis; rewrite H; simpl; rewrite Hsel; simpl.
    rewrite Hms; reflexivity.
  - intros Hbad; destruct (draw_raises nearBandKm close Hbad) as (msg & Hmsg).
    exists msg; unfold notebook, analysis; rewrite H; simpl; rewrite Hsel; simpl.
    rewrite Hmsg; reflexivity.
Qed.

(** X3. When the notebook runs to its end, the map and the summary agree:
    there is one marker per retained row, in row order, placed at
    [(y, x)] of the row's point and carrying the row's distance, and the
    printed count is the number of markers; no retained distance is NaN. *)
Theorem markers_match_summary (P R : GeoDataFrame unit) (c : cell1) (s : summary) :
  notebook P R = Ok (c, s) ->
  length (m c) = number_within s /\
  Forall2 (marker_of nearBandKm) (m c) (rows (close_turbines c)) /\
  Series.count (map nearest_dist (rows (close_turbines c))) = number_within s.
Proof.
  intros H; destruct (notebook_inv _ _ H) as (_ & Hsel & Hdraw & ->).
  pose proof (draw_rows _ _ Hdraw) as Hrows.
  unfold summarise; simpl; repeat split.
  - apply (Forall2_length Hrows).
  - exact Hrows.
  - rewrite (select_distances _ _ Hsel), count_numbers by apply kept_numbers.
    rewrite <- (select_distances _ _ Hsel); apply length_map.
Qed.

(** X4. The colours mean what the notebook's comment says: a red marker
    has a distance below 2 km, an orange marker a distance from 2 km to
    5 km, bounds included. *)
Theorem marker_bands (P R : GeoDataFrame unit) (c : cell1) (s : summary) :
  notebook P R = Ok (c, s) ->
  forall mk, In mk (m c) ->
    leb (popup mk) thresholdKm = true /\
    match marker_color mk with
    | red => ltb (popup mk) nearBandKm = true
    | orange => leb nearBandKm (popup mk) = true
    end.
Proof.
  intros H mk Hmk; destruct (notebook_inv _ _ H) as (_ & Hsel & Hdraw & _).
  destruct (marker_row (draw_rows _ _ Hdraw) mk Hmk) as (r & Hr & _ & Hpop & Hcol).
  pose proof (select_within _ _ Hsel r Hr) as Hle.
  rewrite Hpop, Hcol; split; [exact Hle|].
  unfold color; destruct (ltb (nearest_dist r) nearBandKm) eqn:Hlt; [reflexivity|].
  destruct (leb nearBandKm (nearest_dist r)) eqn:Hge; [reflexivity|].
  assert (Hlt' : ltb (nearest_dist r) nearBandKm = true).
  { apply leb_total; [reflexivity| |exact Hge].
    apply leb_not_nan_l with (y := thresholdKm); exact Hle. }
  rewrite Hlt' in Hlt; discriminate Hlt.
Qed.

Lemma filter_filter_implied (A : Type) (p q : A -> bool) (l : list A) :
  (forall a, In a l -> p a = true -> q a = true) ->
  filter p (filter q l) = filter p l.
Proof.
  induction l as [|a l IH]; simpl; intros H; [reflexivity|].
  assert (IH' : filter p (filter q l) = filter p l)
    by (apply IH; intros b Hb; apply H; right; exact Hb).
  destruct (q a) eqn:Hq; simpl.
  - rewrite IH'; reflexivity.
  - destruct (p a) eqn:Hp; [|exact IH'].
    rewrite (H a (or_introl eq_refl) Hp) in Hq; discriminate Hq.
Qed.

Lemma filter_column_length (q : float -> bool) (rs : list (row float)) :
  length (filter (fun r => q (nearest_dist r)) rs) =
  length (filter q (map nearest_dist rs)).
Proof.
  induction rs as [|r rs IH]; simpl; [reflexivity|].
  destruct (q (nearest_dist r)); simpl; rewrite IH; reflexivity.
Qed.

(** X5. The 5 km selection loses no near turbine: the number of red
    markers is the number of all turbine rows whose distance is below
    2 km. *)
Theorem red_markers_complete (P R : GeoDataFrame unit) (c : cell1) (s : summary) :
  notebook P R = Ok (c, s) ->
  near_count (m c) =
  length (filter (fun t => ltb (nearest_dist t) nearBandKm) (rows (turbines c))).
Proof.
  intros H; destruct (notebook_inv _ _ H) as (_ & Hsel & Hdraw & _).
  rewrite (near_count_spec _ _ Hdraw).
  rewrite !(filter_column_length (fun d => ltb d nearBandKm)).
  rewrite (select_distances _ _ Hsel).
  rewrite filter_filter_implied; [reflexivity|].
  intros d _ Hd; apply ltb_leb.
  apply ltb_leb_trans with (y := nearBandKm); [exact Hd|reflexivity].
Qed.

(** *** Further properties: summary, NaN, provenance and order *)

(** X6. The summary statistics are absent exactly when nothing is
    retained: with a count of 0 the mean, minimum and maximum are NaN, and
    with a positive count the minimum and maximum are numbers with
    [minimum <= maximum <= 5]. *)
Theorem summary_absent_iff_empty (P R : GeoDataFrame unit) (c : cell1) (s : summary) :
  notebook P R = Ok (c, s) ->
  (number_within s = 0 ->
   average_distance s = nan /\ minimum_distance s = nan /\ maximum_distance s = nan) /\
  (number_within s <> 0 ->
   is_nan (minimum_distance s) = false /\ is_nan (maximum_distance s) = false /\
   leb (minimum_distance s) (maximum_distance s) = true /\
   leb (maximum_distance s) thresholdKm = true).
Proof.
  intros H; destruct (notebook_inv _ _ H) as (_ & Hsel & _ & ->).
  pose proof (select_distances _ _ Hsel) as Hd.
  pose proof (kept_numbers thresholdKm (map nearest_dist (rows (turbines c)))) as Hnum.
  rewrite <- Hd in Hnum.
  unfold summarise; simpl; split.
  - intros H0; destruct (rows (close_turbines c)); [|discriminate H0].
    repeat split; reflexivity.
  - intros Hpos.
    assert (Hne : map nearest_dist (rows (close_turbines c)) <> [])
      by (destruct (rows (close_turbines c)); [contradiction Hpos; reflexivity|discriminate]).
    destruct (min_numbers Hne Hnum) as (Hmin & Hlow).
    destruct (max_numbers Hne Hnum) as (Hmax & _).
    repeat split.
    + apply Hnum; exact Hmin.
    + apply Hnum; exact Hmax.
    + apply Hlow; exact Hmax.
    + rewrite Hd in Hmax at 2; apply filter_In in Hmax as (_ & Hle); exact Hle.
Qed.

(** X7. A turbine row gets NaN exactly when no centroid yields a numeric
    distance (in particular when there is no centroid); otherwise the
    centroids whose distance is NaN are skipped and the distance is the
    least of the numeric ones, divided by 1000.  A row with NaN is never
    retained, whatever the threshold. *)
Theorem nearest_nan_iff (P R : GeoDataFrame unit) (T : GeoDataFrame float)
  (C : GeoDataFrame Geom) (t : row float) :
  prepare P R = Ok (T, C) -> In t (rows T) ->
  (is_nan (nearest_dist t) = true <->
   forall c, In c (rows C) -> is_nan (distance (column c) (geometry t)) = true) /\
  (is_nan (nearest_dist t) = false ->
   exists metres,
     In metres (centroid_distances C (geometry t)) /\
     (forall d, In d (centroid_distances C (geometry t)) -> is_nan d = false ->
        leb metres d = true) /\
     nearest_dist t = div metres (of_Z 1000%Z)) /\
  (is_nan (nearest_dist t) = true ->
   forall threshold, ~ In t (rows (within threshold T))).
Proof.
  intros H Ht; rewrite (prepare_nearest _ _ H t Ht); unfold nearest.
  set (ds := centroid_distances C (geometry t)).
  change (of_Z 1000%Z) with (S754_finite false 8796093022208000 (-43)).
  assert (Hall : (forall c, In c (rows C) -> is_nan (distance (column c) (geometry t)) = true)
                 <-> (forall d, In d ds -> is_nan d = true)).
  { unfold ds, centroid_distances; split.
    - intros Hc d Hd; apply in_map_iff in Hd as (c & <- & Hin); apply Hc; exact Hin.
    - intros Hd c Hin; apply Hd, in_map_iff; exists c; split; [reflexivity|exact Hin]. }
  destruct (Nat.eq_dec (Series.count ds) 0) as [H0|Hpos].
  - pose proof (proj1 (count_zero_iff ds) H0) as Hnan.
    rewrite (min_all_nan ds Hnan); simpl.
    split; [split; [intros _; apply Hall; exact Hnan|reflexivity]|].
    split; [discriminate|].
    intros _ threshold Hin; unfold within, select_rows in Hin; simpl in Hin.
    apply filter_In in Hin as (_ & Hle).
    rewrite (prepare_nearest _ _ H t Ht) in Hle; unfold nearest in Hle.
    fold ds in Hle; rewrite (min_all_nan ds Hnan) in Hle; discriminate Hle.
  - destruct (count_positive ds Hpos) as (d0 & Hd0 & Hn0).
    destruct (min_skipna ds) as (Hin & Hnum & Hlow); [exists d0; split; assumption|].
    pose proof (div_number (Series.min ds) 8796093022208000 (-43) Hnum) as Hdiv.
    split; [split|split].
    + intros Hc; rewrite Hdiv in Hc; discriminate Hc.
    + intros Hc; rewrite (proj1 Hall Hc d0 Hd0) in Hn0; discriminate Hn0.
    + intros _; exists (Series.min ds); repeat split; assumption.
    + intros Hc; rewrite Hdiv in Hc; discriminate Hc.
Qed.

(** X8. Every retained row stems from one part of one input turbine
    feature: it keeps the feature's index label and properties, its
    geometry is that part taken to EPSG:3857 and back to EPSG:4326, and
    its distance, measured on the EPSG:3857 geometry, is within the
    threshold. *)
Theorem retained_rows_provenance (P R : GeoDataFrame unit) (T : GeoDataFrame float)
  (C : GeoDataFrame Geom) (close : GeoDataFrame float) (threshold : float) (sp : epsg) :
  prepare P R = Ok (T, C) -> select threshold T = Ok close -> crs P = Some sp ->
  forall t', In t' (rows close) ->
  exists p g,
    In p (rows P) /\ In g (get_parts (geometry p)) /\
    index t' = index p /\ properties t' = properties p /\
    geometry t' = transform 3857%Z 4326%Z (reprojected sp 3857%Z g) /\
    nearest_dist t' = nearest C (reprojected sp 3857%Z g) /\
    leb (nearest_dist t') threshold = true.
Proof.
  intros H Hsel Hsp t' Ht'.
  pose proof (select_within _ _ Hsel t' Ht') as Hle.
  destruct (prepare_crs _ _ H) as (HcT & _).
  destruct (prepare_spec _ _ H) as (P' & R' & HP & _ & _ & HT).
  destruct (to_crs_spec _ _ HP) as (sp' & Hsp' & _ & HrowsP).
  simpl in Hsp'; rewrite Hsp in Hsp'; injection Hsp' as <-.
  apply select_inv in Hsel as (_ & Hsel); destruct (to_crs_spec _ _ Hsel) as (s3 & Hs3 & _ & Hrows).
  simpl in Hs3; rewrite HcT in Hs3; injection Hs3 as <-.
  rewrite Hrows in Ht'; apply in_map_iff in Ht' as (t & <- & Ht).
  unfold within, select_rows in Ht; simpl in Ht; apply filter_In in Ht as (Ht & _).
  rewrite HT in Ht; unfold with_nearest_dist, assign in Ht; simpl in Ht.
  apply in_map_iff in Ht as (r' & <- & Hr').
  rewrite HrowsP in Hr'; apply in_map_iff in Hr' as (r & <- & Hr).
  unfold explode in Hr; simpl in Hr; apply in_flat_map in Hr as (p & Hp & Hr).
  apply in_map_iff in Hr as (g & <- & Hg).
  exists p, g; simpl in Hle |- *; repeat split; try assumption; reflexivity.
Qed.

Lemma explode_index (X : Type) (df : GeoDataFrame X) :
  map (@index X) (rows (explode df)) =
  flat_map (fun r => repeat (index r) (length (get_parts (geometry r)))) (rows df).
Proof.
  unfold explode; simpl.
  induction (rows df) as [|r rs IH]; simpl; [reflexivity|].
  rewrite map_app, IH; f_equal.
  induction (get_parts (geometry r)) as [|g gs IHg]; simpl; [reflexivity|].
  rewrite IHg; reflexivity.
Qed.

(** X9. A turbine feature with several parts gives one row per part, each
    with the feature's index label, and a feature without part gives
    none: the index labels of the distance frame are those of the input
    features, each repeated as many times as the feature has parts. *)
Theorem one_row_per_turbine_part (P R : GeoDataFrame unit) (T : GeoDataFrame float)
  (C : GeoDataFrame Geom) :
  prepare P R = Ok (T, C) ->
  map (@index float) (rows T) =
    flat_map (fun p => repeat (index p) (length (get_parts (geometry p)))) (rows P) /\
  length (rows T) =
    list_sum (map (fun p => length (get_parts (geometry p))) (rows P)).
Proof.
  intros H; destruct (prepare_length _ _ H) as (Hlen & Hidx); split.
  - rewrite Hidx; apply explode_index.
  - rewrite Hlen; apply rows_explode_length.
Qed.

Lemma draw_outcome (near_band : float) (df : GeoDataFrame float) :
  (exists markers, draw near_band df = Ok markers) \/
  (exists msg, draw near_band df = Raise (AttributeError msg)).
Proof.
  assert (Hdec : (forall r, In r (rows df) -> point_xy (geometry r) <> None) \/
                 (exists r, In r (rows df) /\ point_xy (geometry r) = None)).
  { induction (rows df) as [|r rs IH]; [left; intros r []|].
    destruct (point_xy (geometry r)) eqn:Hxy.
    - destruct IH as [IH|(r0 & Hr0 & Hn)].
      + left; intros r' [<-|Hr']; [rewrite Hxy; discriminate|apply IH; exact Hr'].
      + right; exists r0; split; [right; exact Hr0|exact Hn].
    - right; exists r; split; [left; reflexivity|exact Hxy]. }
  destruct Hdec as [Hpts|Hbad]; [left; apply draw_defined|right; apply draw_raises];
    assumption.
Qed.

Lemma explode_empty_iff (X : Type) (df : GeoDataFrame X) :
  rows (explode df) = [] <->
  forall r, In r (rows df) -> get_parts (geometry r) = [].
Proof.
  unfold explode; simpl; induction (rows df) as [|r rs IH]; simpl.
  - split; [intros _ r []|reflexivity].
  - split.
    + intros H; apply app_eq_nil in H as (Hr & Hrs).
      intros r' [<-|Hr'].
      * destruct (get_parts (geometry r)); [reflexivity|discriminate Hr].
      * apply (proj1 IH Hrs r' Hr').
    + intros H; rewrite (H r (or_introl eq_refl)); simpl.
      apply IH; intros r' Hr'; apply H; right; exact Hr'.
Qed.

(** X10. A turbine layer that gives no row does not pass line 116: with
    a CRS on both layers, the notebook raises a TypeError (the comparison
    [<= 5] on an empty column that kept the geometry dtype) exactly when
    the exploded turbine layer has no row, that is when the layer is
    empty or none of its features has a part. *)
Theorem empty_turbine_layer (P R : GeoDataFrame unit) (sp sr : epsg) :
  crs P = Some sp -> crs R = Some sr ->
  (rows (explode P) = [] -> exists msg, notebook P R = Raise (TypeError msg)) /\
  (forall msg, notebook P R = Raise (TypeError msg) -> rows (explode P) = []) /\
  (rows (explode P) = [] <->
   forall p, In p (rows P) -> get_parts (geometry p) = []).
Proof.
  intros HP HR.
  destruct (prepare_defined P R HP HR) as (T & C & H).
  destruct (prepare_length _ _ H) as (Hlen & _).
  destruct (prepare_crs _ _ H) as (HcT & _).
  split; [|split; [|apply explode_empty_iff]].
  - intros Hempty.
    assert (HT : rows T = [])
      by (rewrite Hempty in Hlen; destruct (rows T); [reflexivity|discriminate Hlen]).
    destruct (select_raises thresholdKm T HT) as (msg & Hmsg).
    exists msg; unfold notebook, analysis; rewrite H; simpl; rewrite Hmsg; reflexivity.
  - intros msg Hrun.
    destruct (rows (explode P)) as [|p ps] eqn:Hrows; [reflexivity|exfalso].
    assert (HT : rows T <> []) by (destruct (rows T); [discriminate Hlen|discriminate]).
    destruct (select_defined thresholdKm T HcT HT) as (close & Hsel).
    unfold notebook, analysis in Hrun; rewrite H in Hrun; simpl in Hrun.
    rewrite Hsel in Hrun; simpl in Hrun.
    destruct (draw_outcome nearBandKm close) as [(ms & Hd)|(msg' & Hd)];
      rewrite Hd in Hrun; discriminate Hrun.
Qed.

Lemma nearest_permutation (C C' : GeoDataFrame Geom) (x : Geom) :
  Permutation (map (@column Geom) (rows C)) (map (@column Geom) (rows C')) ->
  agree (nearest C x) (nearest C' x).
Proof.
  intros Hp; unfold nearest.
  change (of_Z 1000%Z) with (S754_finite false 8796093022208000 (-43)).
  apply agree_div, min_permutation.
  rewrite !centroid_distances_columns; apply Permutation_map; exact Hp.
Qed.

Lemma rows_agree (f g : Geom -> float) (threshold near_band : float)
  (l : list (row unit)) :
  (forall x, agree (f x) (g x)) ->
  let rows1 := map (fun r => set_column r (f (geometry r))) l in
  let rows2 := map (fun r => set_column r (g (geometry r))) l in
  let kept := filter (fun r : row float => leb (nearest_dist r) threshold) in
  map (@index float) (kept rows1) = map (@index float) (kept rows2) /\
  map (@geometry float) (kept rows1) = map (@geometry float) (kept rows2) /\
  map (fun t => color near_band (nearest_dist t)) (kept rows1) =
    map (fun t => color near_band (nearest_dist t)) (kept rows2).
Proof.
  intros Hfg; induction l as [|r l IH]; simpl; [repeat split; reflexivity|].
  destruct IH as (Hi & Hg & Hc).
  change (nearest_dist (set_column r (f (geometry r)))) with (f (geometry r)).
  change (nearest_dist (set_column r (g (geometry r)))) with (g (geometry r)).
  rewrite (agree_leb threshold (Hfg (geometry r))).
  destruct (leb (g (geometry r)) threshold); simpl; [|repeat split; assumption].
  change (nearest_dist (set_column r (f (geometry r)))) with (f (geometry r)).
  change (nearest_dist (set_column r (g (geometry r)))) with (g (geometry r)).
  unfold color at 1 3; rewrite (agree_ltb near_band (Hfg (geometry r))).
  rewrite Hi, Hg, Hc; repeat split; reflexivity.
Qed.

(** X11. The order of the districts does not matter: for two district
    layers with the same CRS whose geometries are the same up to their
    order (whatever their index labels and properties), the same turbine
    rows are retained (same index labels and geometries, in the same
    order) and they get the same colours, for every threshold and near
    band. *)
Theorem district_order_irrelevant (P R R' : GeoDataFrame unit)
  (T T' : GeoDataFrame float) (C C' : GeoDataFrame Geom) :
  Permutation (map (@geometry unit) (rows R)) (map (@geometry unit) (rows R')) ->
  crs R = crs R' ->
  prepare P R = Ok (T, C) -> prepare P R' = Ok (T', C') ->
  forall threshold near_band,
    map (@index float) (rows (within threshold T)) =
      map (@index float) (rows (within threshold T')) /\
    map (@geometry float) (rows (within threshold T)) =
      map (@geometry float) (rows (within threshold T')) /\
    map (fun t => color near_band (nearest_dist t)) (rows (within threshold T)) =
      map (fun t => color near_band (nearest_dist t)) (rows (within threshold T')).
Proof.
  intros Hperm Hcrs H H' threshold near_band.
  destruct (prepare_spec _ _ H) as (P1 & R1 & HP1 & HR1 & _ & HT).
  destruct (prepare_spec _ _ H') as (P2 & R2 & HP2 & HR2 & _ & HT').
  rewrite HP1 in HP2; injection HP2 as <-.
  destruct (to_crs_spec _ _ HR1) as (sr & Hsr & _ & _); simpl in Hsr.
  assert (Hsr' : crs R' = Some sr) by (rewrite <- Hcrs; exact Hsr).
  assert (Hcols : Permutation (map (@column Geom) (rows C)) (map (@column Geom) (rows C'))).
  { rewrite (prepare_centroids _ _ H Hsr), (prepare_centroids _ _ H' Hsr').
    apply Permutation_map, Permutation_flat_map; exact Hperm. }
  rewrite HT, HT'; unfold within, select_rows, with_nearest_dist, assign; simpl.
  apply (rows_agree (nearest C) (nearest C') threshold near_band (rows P1)).
  intros x; apply nearest_permutation; exact Hcols.
Qed.

End Notebook.

(** ** Concrete runs on the planar engine *)

Module Demo.

Import Planar.

Definition feature (i : Z) (g : shape) : row shape unit :=
  {| index := i; geometry := g; properties := []; column := tt |}.

(** One district, the square of side 2 m at the origin (centroid (1, 1)),
    and four turbines 5, 1, 2 and 9 km north of its centroid. *)
Definition districts : GeoDataFrame shape unit :=
  {| crs := Some 3857%Z; rows := [feature 0 (square 0 0 2)] |}.

Definition turbines_layer : GeoDataFrame shape unit :=
  {| crs := Some 3857%Z;
     rows := [feature 0 (pt 1 5001); feature 1 (pt 1 1001);
              feature 2 (pt 1 2001); feature 3 (pt 1 9001)] |}.

(** A district made of two squares 20 km apart, and a turbine 1 km north
    of the centroid of the second one. *)
Definition two_part_district : GeoDataFrame shape unit :=
  {| crs := Some 3857%Z;
     rows := [feature 7 (MultiPolygon [ring_of_square 0 0 2;
                                       ring_of_square 20000 0 2])] |}.

Definition one_turbine : GeoDataFrame shape unit :=
  {| crs := Some 3857%Z; rows := [feature 0 (pt 20001 1001)] |}.

Definition no_districts : GeoDataFrame shape unit :=
  {| crs := Some 3857%Z; rows := [] |}.


(** The first two layers given in EPSG:4326, in degrees. *)
Definition degrees (metres : Z) : float := div (of_Z metres) metres_per_degree.

Definition in_degrees (g : shape) : shape := scale (fun c => div c metres_per_degree) g.

Definition to_wgs84 (df : GeoDataFrame shape unit) : GeoDataFrame shape unit :=
  {| crs := Some 4326%Z;
     rows := map (fun r => set_geometry r (in_degrees (geometry r))) (rows df) |}.

(** Two districts 3 km apart: the squares with centroids (1, 1) and
    (1, 3001). *)
Definition two_districts : GeoDataFrame shape unit :=
  {| crs := Some 3857%Z;
     rows := [feature 0 (square 0 0 2); feature 1 (square 0 3000 2)] |}.

(** Nine turbines 0.1, ..., 0.8 and 9 km north of the centroid of the
    square district. *)
Definition nine_turbines : GeoDataFrame shape unit :=
  {| crs := Some 3857%Z;
     rows := map (fun k => feature k (pt 1 (1 + 100 * (k + 1))))
                 [0; 1; 2; 3; 4; 5; 6; 7]%Z
             ++ [feature 8 (pt 1 9001)] |}.

Definition run_prepare := prepare get_parts transform centroid distance.
Definition run_select := select transform.
Definition run_draw := draw point_xy.
Definition run_notebook := notebook get_parts transform centroid distance point_xy.

Definition value {A : Type} (default : A) (r : result A) : A :=
  match r with
  | Ok a => a
  | Raise _ => default
  end.

Definition C0 : GeoDataFrame shape shape := with_centroid centroid districts.
Definition T0 : GeoDataFrame shape float := with_nearest_dist distance C0 turbines_layer.
Definition close0 : GeoDataFrame shape float := value T0 (run_select thresholdKm T0).

Definition C2 : GeoDataFrame shape shape := with_centroid centroid two_districts.
Definition T2 : GeoDataFrame shape float := with_nearest_dist distance C2 turbines_layer.

Definition T9 : GeoDataFrame shape float := with_nearest_dist distance C0 nine_turbines.
Definition close9 : GeoDataFrame shape float := value T9 (run_select thresholdKm T9).

Definition C2parts : GeoDataFrame shape shape :=
  with_centroid centroid (explode get_parts two_part_district).
Definition T2parts : GeoDataFrame shape float :=
  with_nearest_dist distance C2parts one_turbine.

Definition turbine_row (i : Z) (x y km : Z) : row shape float :=
  {| index := i; geometry := pt x y; properties := []; column := of_Z km |}.

Definition nothing : summary :=
  {| number_within := 0; average_distance := nan;
     minimum_distance := nan; maximum_distance := nan |}.

(** The scenario of the square district: 5 km is retained and orange,
    1 km is red, 2 km is orange, 9 km is left out. *)
Example square_scenario :
  run_prepare turbines_layer districts = Ok (T0, C0) /\
  map (@nearest_dist shape) (rows T0) = [of_Z 5; of_Z 1; of_Z 2; of_Z 9] /\
  map (@nearest_dist shape) (rows close0) = [of_Z 5; of_Z 1; of_Z 2] /\
  option_map (map marker_color)
    (match run_draw nearBandKm close0 with Ok ms => Some ms | Raise _ => None end)
  = Some [orange; red; orange] /\
  number_within (summarise close0) = 3 /\
  average_distance (summarise close0) = div (of_Z 8) (of_Z 3) /\
  minimum_distance (summarise close0) = of_Z 1 /\
  maximum_distance (summarise close0) = of_Z 5.
Proof. vm_compute; repeat split; reflexivity. Qed.

(** The same layers read in degrees are reprojected to EPSG:3857 first
    and give the same frames. *)
Example square_scenario_from_degrees :
  run_prepare (to_wgs84 turbines_layer) (to_wgs84 districts) = Ok (T0, C0).
Proof. vm_compute; reflexivity. Qed.

(** The statistics of the whole distance column differ from the summary. *)
Example summary_is_not_over_all_rows :
  Series.mean (map (@nearest_dist shape) (rows T0)) = div (of_Z 17) (of_Z 4) /\
  Series.max (map (@nearest_dist shape) (rows T0)) = of_Z 9 /\
  average_distance (summarise close0) <> Series.mean (map (@nearest_dist shape) (rows T0)) /\
  maximum_distance (summarise close0) <> Series.max (map (@nearest_dist shape) (rows T0)).
Proof. vm_compute; repeat split; try reflexivity; discriminate. Qed.

(** Eight retained rows: the mean is that of NumPy's summation order
    (3.6 / 8), which a sum from left to right misses by one unit in the
    last place. *)
Example mean_of_eight_retained :
  run_prepare nine_turbines districts = Ok (T9, C0) /\
  number_within (summarise close9) = 8 /\
  average_distance (summarise close9) = div (div (of_Z 36) (of_Z 10)) (of_Z 8) /\
  div (fold_left add (map (@nearest_dist shape) (rows close9)) zero) (of_Z 8)
    <> average_distance (summarise close9).
Proof. vm_compute; repeat split; try reflexivity; discriminate. Qed.

(** With a two-part district the distance is taken to the centroid of the
    nearer part (1 km), not to the centroid of the union (about 10 km). *)
Example two_part_scenario :
  run_prepare one_turbine two_part_district = Ok (T2parts, C2parts) /\
  map (@column shape shape) (rows C2parts) = [pt 1 1; pt 20001 1] /\
  map (@nearest_dist shape) (rows T2parts) = [of_Z 1] /\
  centroid (MultiPolygon [ring_of_square 0 0 2; ring_of_square 20000 0 2])
    = pt 10001 1.
Proof. vm_compute; repeat split; reflexivity. Qed.

(** *** The claims on these layers *)


Lemma every_point_gets_a_distance_witness :
  exists T C,
    run_prepare turbines_layer districts = Ok (T, C) /\
    length (rows T) = length (rows turbines_layer) /\
    map (@index shape float) (rows T) = map (@index shape unit) (rows turbines_layer) /\
    forall threshold,
      map (@nearest_dist shape) (rows (within threshold T)) =
      filter (fun d => leb d threshold) (map (@nearest_dist shape) (rows T)).
Proof.
  apply (@every_point_gets_a_distance shape get_parts transform centroid distance
           turbines_layer districts 3857%Z 3857%Z).
  - reflexivity.
  - reflexivity.
  - intros p [<-|[<-|[<-|[<-|[]]]]]; reflexivity.
Defined.

Lemma one_centroid_per_part_witness :
  map (@column shape shape) (rows C2parts) =
    map (fun g => centroid (reprojected transform 3857%Z 3857%Z g))
        (flat_map get_parts (map (@geometry shape unit) (rows two_part_district))) /\
  length (rows C2parts) =
    list_sum (map (fun r => length (get_parts (geometry r))) (rows two_part_district)) /\
  forall t, In t (rows T2parts) ->
    let part_distances :=
      map (fun g => distance (centroid (reprojected transform 3857%Z 3857%Z g))
                             (geometry t))
          (flat_map get_parts (map (@geometry shape unit) (rows two_part_district))) in
    nearest_dist t = div (Series.min part_distances) (of_Z 1000%Z) /\
    forall r g,
      In r (rows two_part_district) -> In g (get_parts (geometry r)) ->
      let d := distance (centroid (reprojected transform 3857%Z 3857%Z g)) (geometry t) in
      In d part_distances /\
      (is_nan d = false ->
       In (Series.min part_distances) part_distances /\
       leb (Series.min part_distances) d = true /\
       is_nan (nearest_dist t) = false).
Proof.
  apply (@one_centroid_per_part shape get_parts transform centroid distance
           one_turbine two_part_district T2parts C2parts 3857%Z).
  - vm_compute; reflexivity.
  - reflexivity.
Defined.

Lemma distances_nonnegative_witness :
  exists sp sr,
    crs (to_wgs84 turbines_layer) = Some sp /\
    crs (to_wgs84 two_districts) = Some sr /\
    crs T2 = Some 3857%Z /\ crs C2 = Some 3857%Z /\
    map (@geometry shape float) (rows T2) =
      map (reprojected transform sp 3857%Z)
          (flat_map get_parts (map (@geometry shape unit) (rows (to_wgs84 turbines_layer)))) /\
    map (@column shape shape) (rows C2) =
      map (fun g => centroid (reprojected transform sr 3857%Z g))
          (flat_map get_parts (map (@geometry shape unit) (rows (to_wgs84 two_districts)))) /\
    forall t, In t (rows T2) ->
      nearest_dist t =
        div (Series.min (map (fun c => distance c (geometry t))
                             (map (@column shape shape) (rows C2))))
            (of_Z 1000%Z) /\
      leb zero (nearest_dist t) = true.
Proof.
  apply (@distances_nonnegative shape get_parts transform centroid distance
           (to_wgs84 turbines_layer) (to_wgs84 two_districts) T2 C2).
  - vm_compute; reflexivity.
  - discriminate.
  - intros r [<-|[<-|[]]]; discriminate.
  - intros c t [<-|[<-|[]]] [<-|[<-|[<-|[<-|[]]]]]; vm_compute; reflexivity.
Defined.


Lemma boundary_values_witness :
  (forall t, In t (rows T0) -> eqb (nearest_dist t) thresholdKm = true ->
     In t (rows (within thresholdKm T0)) /\
     exists t', In t' (rows close0) /\ index t' = index t /\
                nearest_dist t' = nearest_dist t) /\
  (forall r : row shape float, eqb (nearest_dist r) nearBandKm = true ->
     color nearBandKm (nearest_dist r) = orange /\
     forall mk, marker point_xy nearBandKm r = Ok mk -> marker_color mk = orange).
Proof.
  apply (@boundary_values shape transform point_xy thresholdKm nearBandKm T0 close0).
  vm_compute; reflexivity.
Defined.

(** C5 as stated fails: with no district the notebook raises nothing and
    gives every turbine the distance NaN. *)
Lemma empty_regions_raise_nothing :
  (forall e, run_notebook turbines_layer no_districts <> Raise e) /\
  exists c s,
    run_notebook turbines_layer no_districts = Ok (c, s) /\
    map (@nearest_dist shape) (rows (turbines c)) = [nan; nan; nan; nan].
Proof.
  split.
  - intros e; vm_compute; discriminate.
  - eexists; eexists; split; vm_compute; reflexivity.
Qed.

Lemma empty_regions_give_nan_witness :
  exists c,
    run_notebook turbines_layer no_districts = Ok (c, nothing) /\
    length (rows (turbines c)) = length (rows (explode get_parts turbines_layer)) /\
    (forall t, In t (rows (turbines c)) -> nearest_dist t = nan) /\
    rows (close_turbines c) = [] /\ m c = [].
Proof.
  apply (@empty_regions_give_nan shape get_parts transform centroid distance point_xy
           turbines_layer no_districts 3857%Z 3857%Z).
  - reflexivity.
  - reflexivity.
  - reflexivity.
  - vm_compute; discriminate.
Defined.


Lemma counts_monotone_witness :
  length (rows (within nearBandKm T0)) <= length (rows (within thresholdKm T0)) /\
  (forall c1 c2, run_select nearBandKm T0 = Ok c1 -> run_select thresholdKm T0 = Ok c2 ->
     number_within (summarise c1) <= number_within (summarise c2)) /\
  (forall close ms1 ms2,
     run_draw (of_Z 1) close = Ok ms1 -> run_draw nearBandKm close = Ok ms2 ->
     near_count ms1 <= near_count ms2).
Proof.
  apply (@counts_monotone shape transform point_xy T0 nearBandKm thresholdKm
           (of_Z 1) nearBandKm); vm_compute; reflexivity.
Defined.

Lemma reprojection_keeps_distances_witness :
  crs close0 = Some 4326%Z /\
  map (@nearest_dist shape) (rows close0) =
    map (@nearest_dist shape) (rows (within thresholdKm T0)) /\
  map (@index shape float) (rows close0) =
    map (@index shape float) (rows (within thresholdKm T0)) /\
  map (@properties shape float) (rows close0) =
    map (@properties shape float) (rows (within thresholdKm T0)) /\
  map (fun r => color nearBandKm (nearest_dist r)) (rows close0) =
    map (fun r => color nearBandKm (nearest_dist r)) (rows (within thresholdKm T0)) /\
  forall markers, run_draw nearBandKm close0 = Ok markers ->
    map marker_color markers =
      map (fun r => color nearBandKm (nearest_dist r)) (rows (within thresholdKm T0)) /\
    map popup markers = map (@nearest_dist shape) (rows (within thresholdKm T0)).
Proof.
  apply (@reprojection_keeps_distances shape transform point_xy thresholdKm nearBandKm
           T0 close0).
  vm_compute; reflexivity.
Defined.

End Demo.

(** ** More concrete runs *)

Module More.

Import Planar.
Import Demo.

(** The outcome of the notebook on the square scenario. *)
Definition c0 : cell1 shape :=
  {| turbines := T0; cities := C0; close_turbines := close0;
     m := value [] (run_draw nearBandKm close0) |}.

Definition s0 : summary := summarise close0.

(** A turbine mapped as two points (1 km and 9 km from the centroid)
    beside a single one (2 km). *)
Definition two_point_turbine : GeoDataFrame shape unit :=
  {| crs := Some 3857%Z;
     rows := [feature 4 (MultiPoint [(of_Z 1, of_Z 1001); (of_Z 1, of_Z 9001)]);
              feature 5 (pt 1 2001)] |}.

Definition T2points : GeoDataFrame shape float :=
  with_nearest_dist distance C0 (explode get_parts two_point_turbine).

(** The two districts written in the other order; a file read in that
    order labels its rows by position again. *)
Definition two_districts_reversed : GeoDataFrame shape unit :=
  {| crs := Some 3857%Z;
     rows := [feature 0 (square 0 3000 2); feature 1 (square 0 0 2)] |}.

Definition C2r : GeoDataFrame shape shape := with_centroid centroid two_districts_reversed.
Definition T2r : GeoDataFrame shape float := with_nearest_dist distance C2r turbines_layer.

(** A district whose ring is empty has a centroid with NaN coordinates. *)
Definition with_empty_district : GeoDataFrame shape unit :=
  {| crs := Some 3857%Z;
     rows := [feature 0 (Polygon []); feature 1 (square 0 0 2)] |}.

(** The empty district alone. *)
Definition only_empty_district : GeoDataFrame shape unit :=
  {| crs := Some 3857%Z; rows := [feature 0 (Polygon [])] |}.

Definition Cmixed : GeoDataFrame shape shape := with_centroid centroid with_empty_district.
Definition Tmixed : GeoDataFrame shape float :=
  with_nearest_dist distance Cmixed turbines_layer.
Definition Cnan : GeoDataFrame shape shape := with_centroid centroid only_empty_district.
Definition Tnan : GeoDataFrame shape float :=
  with_nearest_dist distance Cnan turbines_layer.

Definition nan_row : row shape float :=
  {| index := 0; geometry := pt 1 5001; properties := []; column := nan |}.

Definition no_turbines : GeoDataFrame shape unit :=
  {| crs := Some 3857%Z; rows := [] |}.

(** A turbine feature without part. *)
Definition partless_turbine : GeoDataFrame shape unit :=
  {| crs := Some 3857%Z; rows := [feature 0 (MultiPoint [])] |}.

(** A turbine mapped as a way (a line 1 km north of the centroid) beside
    a point 9 km away. *)
Definition way_turbine : GeoDataFrame shape unit :=
  {| crs := Some 3857%Z;
     rows := [feature 0 (LineString [(of_Z 1, of_Z 1001); (of_Z 3, of_Z 1001)]);
              feature 1 (pt 1 9001)] |}.

Definition no_crs : GeoDataFrame shape unit :=
  {| crs := None; rows := [feature 0 (pt 1 1001)] |}.

(** The first retained row (5 km), in degrees, and its marker. *)
Definition retained0 : row shape float :=
  {| index := 0; geometry := Point (degrees 1, degrees 5001); properties := [];
     column := of_Z 5 |}.

Definition marker0 : CircleMarker :=
  {| location := (degrees 5001, degrees 1); marker_color := orange; popup := of_Z 5 |}.

Example square_scenario_outcome :
  run_notebook turbines_layer districts = Ok (c0, s0) /\
  near_count (m c0) = 1.
Proof. vm_compute; split; reflexivity. Qed.

(** A district with a NaN centroid is skipped by the minimum. *)
Example nan_centroid_is_skipped :
  option_map (fun tc => map (@nearest_dist shape) (rows (fst tc)))
    (match run_prepare turbines_layer with_empty_district with
     | Ok tc => Some tc | Raise _ => None end)
  = Some [of_Z 5; of_Z 1; of_Z 2; of_Z 9] /\
  centroid_distances distance
    (with_centroid centroid with_empty_district) (pt 1 5001) = [nan; of_Z 5000].
Proof. vm_compute; split; reflexivity. Qed.

(** A layer without CRS stops the notebook at [to_crs]. *)
Example missing_crs_raises :
  run_notebook no_crs districts =
  Raise (ValueError "Cannot transform naive geometries.  Please set a crs on the object first.").
Proof. vm_compute; reflexivity. Qed.

(** A retained turbine that is not a point stops the map loop. *)
Example way_turbine_raises :
  option_map (fun tc => map (@nearest_dist shape) (rows (fst tc)))
    (match run_prepare way_turbine districts with
     | Ok tc => Some tc | Raise _ => None end)
  = Some [of_Z 1; of_Z 9] /\
  run_notebook way_turbine districts =
  Raise (AttributeError "geometry has no attribute y").
Proof. vm_compute; split; reflexivity. Qed.

(** A turbine layer without row stops the notebook at line 116. *)
Example no_turbine_raises :
  run_prepare no_turbines districts
  = Ok ({| crs := Some 3857%Z; rows := [] |}, C0) /\
  run_notebook no_turbines districts =
  Raise (TypeError "'<=' not supported between instances of 'GeometryArray' and 'int'") /\
  run_notebook partless_turbine districts =
  Raise (TypeError "'<=' not supported between instances of 'GeometryArray' and 'int'").
Proof. vm_compute; repeat split; reflexivity. Qed.

(** The two points of one turbine feature give two rows with its label. *)
Example two_point_turbine_rows :
  run_prepare two_point_turbine districts = Ok (T2points, C0) /\
  map (@index shape float) (rows T2points) = [4; 4; 5]%Z /\
  map (@nearest_dist shape) (rows T2points) = [of_Z 1; of_Z 9; of_Z 2].
Proof. vm_compute; repeat split; reflexivity. Qed.

Lemma map_needs_points_witness :
  exists T C close,
    run_prepare way_turbine districts = Ok (T, C) /\
    run_select thresholdKm T = Ok close /\
    ((forall r, In r (rows close) -> point_xy (geometry r) <> None) ->
     exists markers,
       run_notebook way_turbine districts =
       Ok ({| turbines := T; cities := C; close_turbines := close; m := markers |},
           summarise close)) /\
    ((exists r, In r (rows close) /\ point_xy (geometry r) = None) ->
     exists msg, run_notebook way_turbine districts = Raise (AttributeError msg)).
Proof.
  apply (@map_needs_points shape get_parts transform centroid distance point_xy
           way_turbine districts 3857%Z 3857%Z).
  - reflexivity.
  - reflexivity.
  - vm_compute; discriminate.
Defined.

Lemma markers_match_summary_witness :
  length (m c0) = number_within s0 /\
  Forall2 (marker_of point_xy nearBandKm) (m c0) (rows (close_turbines c0)) /\
  Series.count (map (@nearest_dist shape) (rows (close_turbines c0))) = number_within s0.
Proof.
  apply (@markers_match_summary shape get_parts transform centroid distance point_xy
           turbines_layer districts c0 s0).
  vm_compute; reflexivity.
Defined.

Lemma marker_bands_witness :
  leb (popup marker0) thresholdKm = true /\
  match marker_color marker0 with
  | red => ltb (popup marker0) nearBandKm = true
  | orange => leb nearBandKm (popup marker0) = true
  end.
Proof.
  apply (@marker_bands shape get_parts transform centroid distance point_xy
           turbines_layer districts c0 s0).
  - vm_compute; reflexivity.
  - vm_compute; left; reflexivity.
Defined.

Lemma red_markers_complete_witness :
  near_count (m c0) =
  length (filter (fun t => ltb (nearest_dist t) nearBandKm) (rows (turbines c0))).
Proof.
  apply (@red_markers_complete shape get_parts transform centroid distance point_xy
           turbines_layer districts c0 s0).
  vm_compute; reflexivity.
Defined.

Lemma summary_absent_iff_empty_witness :
  (number_within s0 = 0 ->
   average_distance s0 = nan /\ minimum_distance s0 = nan /\ maximum_distance s0 = nan) /\
  (number_within s0 <> 0 ->
   is_nan (minimum_distance s0) = false /\ is_nan (maximum_distance s0) = false /\
   leb (minimum_distance s0) (maximum_distance s0) = true /\
   leb (maximum_distance s0) thresholdKm = true).
Proof.
  apply (@summary_absent_iff_empty shape get_parts transform centroid distance point_xy
           turbines_layer districts c0 s0).
  vm_compute; reflexivity.
Defined.

Definition nan_law (C : GeoDataFrame shape shape) (T : GeoDataFrame shape float)
  (t : row shape float) : Prop :=
  (is_nan (nearest_dist t) = true <->
   forall c, In c (rows C) -> is_nan (distance (column c) (geometry t)) = true) /\
  (is_nan (nearest_dist t) = false ->
   exists metres,
     In metres (centroid_distances distance C (geometry t)) /\
     (forall d, In d (centroid_distances distance C (geometry t)) ->
        is_nan d = false -> leb metres d = true) /\
     nearest_dist t = div metres (of_Z 1000%Z)) /\
  (is_nan (nearest_dist t) = true ->
   forall threshold, ~ In t (rows (within threshold T))).

(** One row whose distances are [nan; 5000.0] (the NaN is skipped) and
    one row whose only distance is NaN (the row gets NaN and is never
    retained). *)
Lemma nearest_nan_iff_witness :
  centroid_distances distance Cmixed (pt 1 5001) = [nan; of_Z 5000] /\
  nan_law Cmixed Tmixed (turbine_row 0 1 5001 5) /\
  centroid_distances distance Cnan (pt 1 5001) = [nan] /\
  nan_law Cnan Tnan nan_row.
Proof.
  split; [vm_compute; reflexivity|split; [|split; [vm_compute; reflexivity|]]].
  - apply (@nearest_nan_iff shape get_parts transform centroid distance
             turbines_layer with_empty_district Tmixed Cmixed).
    + vm_compute; reflexivity.
    + vm_compute; left; reflexivity.
  - apply (@nearest_nan_iff shape get_parts transform centroid distance
             turbines_layer only_empty_district Tnan Cnan).
    + vm_compute; reflexivity.
    + vm_compute; left; reflexivity.
Defined.

Lemma retained_rows_provenance_witness :
  exists p g,
    In p (rows turbines_layer) /\ In g (get_parts (geometry p)) /\
    index retained0 = index p /\ properties retained0 = properties p /\
    geometry retained0 =
      transform 3857%Z 4326%Z (reprojected transform 3857%Z 3857%Z g) /\
    nearest_dist retained0 =
      nearest distance C0 (reprojected transform 3857%Z 3857%Z g) /\
    leb (nearest_dist retained0) thresholdKm = true.
Proof.
  apply (@retained_rows_provenance shape get_parts transform centroid distance
           turbines_layer districts T0 C0 close0 thresholdKm 3857%Z).
  - vm_compute; reflexivity.
  - vm_compute; reflexivity.
  - reflexivity.
  - vm_compute; left; reflexivity.
Defined.

Lemma one_row_per_turbine_part_witness :
  map (@index shape float) (rows T2points) =
    flat_map (fun p => repeat (index p) (length (get_parts (geometry p))))
             (rows two_point_turbine) /\
  length (rows T2points) =
    list_sum (map (fun p => length (get_parts (geometry p))) (rows two_point_turbine)).
Proof.
  apply (@one_row_per_turbine_part shape get_parts transform centroid distance
           two_point_turbine districts T2points C0).
  vm_compute; reflexivity.
Defined.

Lemma empty_turbine_layer_witness :
  (rows (explode get_parts partless_turbine) = [] ->
   exists msg, run_notebook partless_turbine two_part_district = Raise (TypeError msg)) /\
  (forall msg, run_notebook partless_turbine two_part_district = Raise (TypeError msg) ->
   rows (explode get_parts partless_turbine) = []) /\
  (rows (explode get_parts partless_turbine) = [] <->
   forall p, In p (rows partless_turbine) -> get_parts (geometry p) = []).
Proof.
  apply (@empty_turbine_layer shape get_parts transform centroid distance point_xy
           partless_turbine two_part_district 3857%Z 3857%Z); reflexivity.
Defined.

Lemma district_order_irrelevant_witness :
  map (@index shape float) (rows (within thresholdKm T2)) =
    map (@index shape float) (rows (within thresholdKm T2r)) /\
  map (@geometry shape float) (rows (within thresholdKm T2)) =
    map (@geometry shape float) (rows (within thresholdKm T2r)) /\
  map (fun t => color nearBandKm (nearest_dist t)) (rows (within thresholdKm T2)) =
    map (fun t => color nearBandKm (nearest_dist t)) (rows (within thresholdKm T2r)).
Proof.
  apply (@district_order_irrelevant shape get_parts transform centroid distance
           turbines_layer two_districts two_districts_reversed T2 T2r C2 C2r).
  - apply perm_swap.
  - reflexivity.
  - vm_compute; reflexivity.
  - vm_compute; reflexivity.
Defined.

End More.
